(** * ClawPrint client bindings: a shallow embedding and its properties

    The development follows the Python sources of the SDK
    ([sdks/python/clawprint]: [exceptions.py], [types.py], [http.py],
    [client.py]) and of the LangChain adapter's private client
    ([langchain_community/tools/clawprint/_client.py]).

    Python values are one universe [pyval]; a [dict] is an association list
    in insertion order, request headers are a [gmap]; code that may raise
    returns a sum of an exception and a value; the network is a function
    from the request handed to [requests] to what [requests] gives back,
    and every operation returns, next to its result, the list of requests
    it handed over. *)

From Stdlib Require Import ZArith Ascii String DecimalString Lia ZifyBool.
From stdpp Require Import base option list strings gmap.

Local Open Scope string_scope.
Local Open Scope Z_scope.

(** ** Python values *)

(** What [json.loads] produces ([PNone], [PBool], [PInt], [PFloat], [PStr],
    [PList], [PDict]) and the instances of [_APIObject] and its subclasses
    ([PObj], with the instance's [__dict__]). A float is carried as the
    mantissa and exponent of its value; the client never computes with it.
    A [str] is a string of code points below 256; what the bindings ask of
    a [str] is given for every [str] under "A [str] in full". *)
Inductive api_class :=
| _APIObject | SearchResponse | TrustResponse | RegisterResponse
| UpdateResponse | ReportResponse | DomainsResponse | ScanResponse
| DiscoverResponse.

#[warnings="-register-all"]
Inductive pyval :=
| PNone
| PBool (b : bool)
| PInt (n : Z)
| PFloat (m e : Z)
| PStr (s : string)
| PList (l : list pyval)
| PDict (o : list (string * pyval))
| PObj (cls : api_class) (attrs : list (string * pyval)).

Abbreviation pydict := (list (string * pyval)).

(** Induction over [pyval] with the hypotheses for the values inside lists,
    dicts and instances. *)
Section pyval_induction.
Variable P : pyval -> Prop.
Hypothesis HNone : P PNone.
Hypothesis HBool : forall b, P (PBool b).
Hypothesis HInt : forall n, P (PInt n).
Hypothesis HFloat : forall m e, P (PFloat m e).
Hypothesis HStr : forall s, P (PStr s).
Hypothesis HList : forall l, Forall P l -> P (PList l).
Hypothesis HDict : forall o, Forall (fun kv => P (snd kv)) o -> P (PDict o).
Hypothesis HObj :
  forall cls attrs, Forall (fun kv => P (snd kv)) attrs -> P (PObj cls attrs).

Fixpoint pyval_nested_ind (v : pyval) : P v :=
  match v with
  | PNone => HNone
  | PBool b => HBool b
  | PInt n => HInt n
  | PFloat m e => HFloat m e
  | PStr s => HStr s
  | PList l =>
      HList l
        ((fix go (l : list pyval) : Forall P l :=
            match l with
            | [] => List.Forall_nil P
            | x :: r => @List.Forall_cons _ P x r (pyval_nested_ind x) (go r)
            end) l)
  | PDict o =>
      HDict o
        ((fix go (o : pydict) : Forall (fun kv => P (snd kv)) o :=
            match o with
            | [] => List.Forall_nil _
            | kv :: r =>
                @List.Forall_cons _ (fun kv => P (snd kv)) kv r
                  (pyval_nested_ind (snd kv)) (go r)
            end) o)
  | PObj cls attrs =>
      HObj cls attrs
        ((fix go (o : pydict) : Forall (fun kv => P (snd kv)) o :=
            match o with
            | [] => List.Forall_nil _
            | kv :: r =>
                @List.Forall_cons _ (fun kv => P (snd kv)) kv r
                  (pyval_nested_ind (snd kv)) (go r)
            end) attrs)
  end.
End pyval_induction.

(** Truth value of a Python value: [if v], [not v], [a or b]. An
    [_APIObject] defines neither [__bool__] nor [__len__], so it is true. *)
Definition truthy (v : pyval) : bool :=
  match v with
  | PNone => false
  | PBool b => b
  | PInt n => negb (n =? 0)
  | PFloat m _ => negb (m =? 0)
  | PStr s => negb (String.eqb s "")
  | PList l => match l with [] => false | _ => true end
  | PDict o => match o with [] => false | _ => true end
  | PObj _ _ => true
  end.

(** ** Dictionaries in insertion order *)

(** [d.get(k)] / [k in d]: the binding of [k]. *)
Fixpoint dict_get (k : string) (d : pydict) : option pyval :=
  match d with
  | [] => None
  | (k', v) :: r => if String.eqb k k' then Some v else dict_get k r
  end.

(** [d[k] = v]: replace the binding in place, or append a new one. *)
Fixpoint dict_set (k : string) (v : pyval) (d : pydict) : pydict :=
  match d with
  | [] => [(k, v)]
  | (k', v') :: r =>
      if String.eqb k k' then (k, v) :: r else (k', v') :: dict_set k v r
  end.

Definition keys (d : pydict) : list string := map fst d.

(** A value whose dicts all have distinct keys, as every Python dict has. *)
Fixpoint dict_wf (v : pyval) : Prop :=
  match v with
  | PList l => (fix all l := match l with [] => True | x :: r => dict_wf x /\ all r end) l
  | PDict o | PObj _ o =>
      NoDup (keys o) /\
      (fix all (o : pydict) :=
         match o with [] => True | kv :: r => dict_wf (snd kv) /\ all r end) o
  | _ => True
  end.

(** A value as [json.loads] returns it: no instance of a class inside. *)
Fixpoint is_json (v : pyval) : bool :=
  match v with
  | PList l => forallb is_json l
  | PDict o => forallb (fun kv => is_json (snd kv)) o
  | PObj _ _ => false
  | _ => true
  end.

(** ** Strings *)

(** [str.isspace] on the code points below 256; [isspace_cp] is the
    function on every code point. *)
Definition isspace (c : ascii) : bool :=
  let n := Z.of_nat (nat_of_ascii c) in
  ((9 <=? n) && (n <=? 13)) || ((28 <=? n) && (n <=? 32))
  || (n =? 133) || (n =? 160).

Fixpoint lstrip (s : string) : string :=
  match s with
  | EmptyString => EmptyString
  | String c r => if isspace c then lstrip r else s
  end.

(** [s.rstrip()] with the characters to drop given by [drop]. *)
Fixpoint rstrip_by (drop : ascii -> bool) (s : string) : string :=
  match s with
  | EmptyString => EmptyString
  | String c r =>
      match rstrip_by drop r with
      | EmptyString => if drop c then EmptyString else String c EmptyString
      | r' => String c r'
      end
  end.

(** [s.strip()]. *)
Definition strip (s : string) : string := rstrip_by isspace (lstrip s).

(** [base_url.rstrip("/")]. *)
Definition rstrip_slash (s : string) : string :=
  rstrip_by (fun c => Ascii.eqb c "/"%char) s.

(** ** Exceptions ([exceptions.py], and the adapter's [ClawPrintAPIError]) *)

(** The exception classes that occur, with the built-in ones the
    interpreter raises. *)
Inductive exc_class :=
| BaseException | Exception | TypeError | AttributeError | ValueError
| ClawPrintError | AuthenticationError | ValidationError
| ClawPrintAPIError.

(** The base named in each [class] statement. *)
Definition exc_base (c : exc_class) : option exc_class :=
  match c with
  | BaseException => None
  | Exception => Some BaseException
  | TypeError | AttributeError | ValueError => Some Exception
  | ClawPrintError => Some Exception
  | AuthenticationError | ValidationError => Some ClawPrintError
  | ClawPrintAPIError => Some Exception
  end.

Definition exc_class_eqb (a b : exc_class) : bool :=
  match a, b with
  | BaseException, BaseException | Exception, Exception
  | TypeError, TypeError | AttributeError, AttributeError
  | ValueError, ValueError | ClawPrintError, ClawPrintError
  | AuthenticationError, AuthenticationError
  | ValidationError, ValidationError
  | ClawPrintAPIError, ClawPrintAPIError => true
  | _, _ => false
  end.

(** [issubclass(c, b)], walking up the bases; the hierarchy is three deep. *)
Fixpoint issubclass_upto (fuel : nat) (c b : exc_class) : bool :=
  exc_class_eqb c b ||
  match fuel with
  | O => false
  | S fuel' =>
      match exc_base c with
      | Some c' => issubclass_upto fuel' c' b
      | None => false
      end
  end.

Definition issubclass : exc_class -> exc_class -> bool := issubclass_upto 3.

(** An exception instance: its class and the attributes [ClawPrintError]
    stores. [ClawPrintAPIError] keeps its [status_code] in [exc_status] and
    its [detail] in [exc_body]. *)
Record exn := {
  exc_cls : exc_class;
  exc_message : string;
  exc_status : option Z;
  exc_code : pyval;
  exc_body : pyval
}.

(** [isinstance(e, b)], what an [except b:] clause tests. *)
Definition isinstance (e : exn) (b : exc_class) : bool :=
  issubclass (exc_cls e) b.

(** [ClawPrintError(message, status, code, body)]. *)
Definition ClawPrintError_new (message : string) (status : option Z)
    (code body : pyval) : exn :=
  {| exc_cls := ClawPrintError; exc_message := message;
     exc_status := status; exc_code := code; exc_body := body |}.

(** [AuthenticationError(method)]. *)
Definition AuthenticationError_new (method : string) : exn :=
  {| exc_cls := AuthenticationError;
     exc_message :=
       "API key required for " +:+ method +:+ "(). " +:+
       "Pass api_key to ClawPrint() or set the CLAWPRINT_API_KEY env var.";
     exc_status := None; exc_code := PStr "auth_required";
     exc_body := PNone |}.

(** [ValidationError(message)]. *)
Definition ValidationError_new (message : string) : exn :=
  {| exc_cls := ValidationError; exc_message := message;
     exc_status := None; exc_code := PStr "validation_error";
     exc_body := PNone |}.

(** An exception of the interpreter. *)
Definition builtin_error (c : exc_class) (message : string) : exn :=
  {| exc_cls := c; exc_message := message; exc_status := None;
     exc_code := PNone; exc_body := PNone |}.

(** Code that returns or raises. *)
Inductive result (A : Type) :=
| Ok (a : A)
| Raise (e : exn).
Arguments Ok {A} a.
Arguments Raise {A} e.

Definition rbind {A B} (m : result A) (f : A -> result B) : result B :=
  match m with
  | Ok a => f a
  | Raise e => Raise e
  end.

(** ** Response envelope ([types.py]) *)

(** [object.__setattr__(self, name, value)] on an instance of a class
    without [__slots__]: the names of the data descriptors every such
    instance has are refused ([__class__] and [__dict__] want a class and a
    dict, [__weakref__] is not writable), every other name is stored in the
    instance's [__dict__]. *)
Definition object_setattr (self : pydict) (name : string) (value : pyval)
    : result pydict :=
  if String.eqb name "__class__" then
    Raise (builtin_error TypeError "__class__ must be set to a class")
  else if String.eqb name "__dict__" then
    Raise (builtin_error TypeError "__dict__ must be set to a dictionary")
  else if String.eqb name "__weakref__" then
    Raise (builtin_error AttributeError "attribute '__weakref__' is not writable")
  else Ok (dict_set name value self).

Section envelope.
(** [_wrap], for the recursive calls. *)
Variable wrap : pyval -> result pyval.

(** The loop of [_APIObject.__init__]:
    [for key, value in data.items(): object.__setattr__(self, key, _wrap(value))]. *)
Fixpoint init_items (items : pydict) (self : pydict) : result pydict :=
  match items with
  | [] => Ok self
  | (key, value) :: rest =>
      match wrap value with
      | Raise e => Raise e
      | Ok w =>
          match object_setattr self key w with
          | Raise e => Raise e
          | Ok self' => init_items rest self'
          end
      end
  end.

(** [[_wrap(v) for v in value]]. *)
Fixpoint wrap_list (l : list pyval) : result (list pyval) :=
  match l with
  | [] => Ok []
  | v :: r =>
      match wrap v with
      | Raise e => Raise e
      | Ok w =>
          match wrap_list r with
          | Raise e => Raise e
          | Ok ws => Ok (w :: ws)
          end
      end
  end.

(** [_APIObject.__init__(self, data)] for a dict [data]: [_data] is set
    first, then one attribute per key. *)
Definition init_dict (cls : api_class) (data : pydict) : result pyval :=
  match init_items data [("_data", PDict data)] with
  | Raise e => Raise e
  | Ok self => Ok (PObj cls self)
  end.
End envelope.

(** [_wrap(value)]. *)
Fixpoint _wrap (value : pyval) : result pyval :=
  match value with
  | PDict o => init_dict _wrap _APIObject o
  | PList l =>
      match wrap_list _wrap l with
      | Raise e => Raise e
      | Ok ws => Ok (PList ws)
      end
  | _ => Ok value
  end.

(** [cls(data)] for [_APIObject] and its subclasses, none of which
    overrides [__init__]. What is not a dict has no [items]. *)
Definition APIObject_new (cls : api_class) (data : pyval) : result pyval :=
  match data with
  | PDict o => init_dict _wrap cls o
  | _ => Raise (builtin_error AttributeError "object has no attribute 'items'")
  end.

(** The instance attribute [name] of [self], where [getattr(self, name)]
    looks first: the class has no data descriptor under a name that
    [object_setattr] stores. [None]: no instance attribute of that name. *)
Definition getattr (self : pyval) (name : string) : option pyval :=
  match self with
  | PObj _ attrs => dict_get name attrs
  | _ => None
  end.

(** [self[key]], that is [_APIObject.__getitem__], for a key that is an
    instance attribute. *)
Definition getitem (self : pyval) (key : string) : option pyval :=
  getattr self key.

(** ** Built-in functions of the interpreter *)

Definition code_point (c : ascii) : Z := Z.of_nat (nat_of_ascii c).

Section builtins.
(** [str(v)] for a float, a list, a dict or an instance: their [repr]. *)
Variable str_other : pyval -> string.
(** [dict(v)] for what is not a dict. *)
Variable dict_other : pyval -> result pyval.

(** [str(v)], as in [str(message)] and in an f-string. *)
Definition py_str (v : pyval) : string :=
  match v with
  | PStr s => s
  | PNone => "None"
  | PBool true => "True"
  | PBool false => "False"
  | PInt n => NilZero.string_of_int (Z.to_int n)
  | _ => str_other v
  end.

(** [dict(v)]: a shallow copy of a dict. *)
Definition py_dict (v : pyval) : result pyval :=
  match v with
  | PDict o => Ok (PDict o)
  | _ => dict_other v
  end.

(** [self.to_dict()]: the attribute [to_dict] is looked up on the
    instance before the class, and no value stored there is callable;
    the method itself is [dict(self._data)]. *)
Definition to_dict (self : pyval) : result pyval :=
  match getattr self "to_dict" with
  | Some _ => Raise (builtin_error TypeError "object is not callable")
  | None =>
      match getattr self "_data" with
      | Some d => py_dict d
      | None => Raise (builtin_error AttributeError "no attribute '_data'")
      end
  end.

(** [ClawPrintError._format]. *)
Definition _format (e : exn) : string :=
  (match exc_status e with
   | Some s => "[" +:+ py_str (PInt s) +:+ "] "
   | None => ""
   end) +:+
  (if truthy (exc_code e) then "(" +:+ py_str (exc_code e) +:+ ") " else "")
  +:+ exc_message e.
End builtins.

(** ** HTTP transport ([http.py]) *)

(** The arguments of one call of [self._session.request]. *)
Record Request := {
  rq_method : string;
  rq_url : string;
  rq_params : option pydict;
  rq_json : pyval;
  rq_headers : gmap string string;
  rq_timeout : pyval
}.

(** A [requests.Response]: [status_code]; [ok]; what [json()] returns, or
    [None] when it raises [ValueError]; [text]. *)
Record Response := {
  status_code : Z;
  ok : bool;
  json : option pyval;
  text : string
}.

(** [requests.Response.ok] is computed by [raise_for_status], which raises
    for [400 <= status_code < 600] and for nothing else. *)
Definition requests_ok (status : Z) : bool :=
  negb ((400 <=? status) && (status <? 600)).

(** A response as the [requests] library builds it. *)
Definition from_requests (resp : Response) : Prop :=
  ok resp = requests_ok (status_code resp).

(** An exception of [requests]: whether it is an instance of
    [requests.ConnectionError], of [requests.Timeout] (a [ConnectTimeout]
    is both), and its text. Each is a [requests.RequestException]. *)
Record RequestException := {
  is_ConnectionError : bool;
  is_Timeout : bool;
  exc_text : string
}.

(** What [self._session.request] does with a request it takes: it
    answers, or it raises an exception of [requests]. A call with a
    [timeout] that is not positive, or with a body [json] cannot serialize,
    raises a [ValueError] or a [TypeError] instead, which no [except]
    clause of the bindings catches; such a call is not among the
    replies. *)
Inductive reply :=
| Responded (resp : Response)
| Failed (exc : RequestException).

(** An operation: the requests handed to the session, in order, and the
    result. *)
Definition M (A : Type) : Type := (list Request * result A)%type.

Definition ret {A} (a : A) : M A := ([], Ok a).
Definition raise {A} (e : exn) : M A := ([], Raise e).
Definition lift {A} (r : result A) : M A := ([], r).
Definition bind {A B} (m : M A) (f : A -> M B) : M B :=
  match m with
  | (t, Raise e) => (t, Raise e)
  | (t, Ok a) => let '(t', r) := f a in ((t ++ t')%list, r)
  end.

Notation "'do' x <- m ; k" := (bind m (fun x => k))
  (at level 10, x name, m at level 100, k at level 200).
Notation "'run' m ; k" := (bind m (fun _ => k))
  (at level 10, m at level 100, k at level 200).

Definition issued {A} (m : M A) : list Request := fst m.
Definition outcome {A} (m : M A) : result A := snd m.

Record HTTPClient := {
  http_api_key : option string;
  base_url : string;
  timeout : pyval;
  session_headers : gmap string string
}.

(** Truth value of an [Optional[str]]. *)
Definition str_truthy (k : option string) : bool :=
  match k with
  | Some s => negb (String.eqb s "")
  | None => false
  end.

(** [HTTPClient.__init__]. *)
Definition HTTPClient_new (api_key : option string) (base_url : string)
    (timeout : pyval) : HTTPClient :=
  {| http_api_key := api_key;
     base_url := rstrip_slash base_url;
     timeout := timeout;
     session_headers :=
       <["Accept" := "application/json"]>
         (<["User-Agent" := "clawprint-python/0.1.0"]> ∅) |}.

Definition _url (self : HTTPClient) (path : string) : string :=
  base_url self +:+ path.

(** [HTTPClient._headers]. *)
Definition _headers (self : HTTPClient) (authenticated : bool)
    : gmap string string :=
  if authenticated && str_truthy (http_api_key self) then
    <["Authorization" := "Bearer " +:+ default "" (http_api_key self)]> ∅
  else ∅.

(** The headers that leave with a request: those of the call over the
    session's. *)
Definition outgoing_headers (self : HTTPClient) (rq : Request)
    : gmap string string :=
  rq_headers rq ∪ session_headers self.

(** [quote(segment, safe="")] on a string of the model: the unreserved
    characters stay, every other byte of the UTF-8 encoding, one byte below
    code point 128 and two from there to 255, becomes [%XX]. [quote] is the
    function on every [str]. *)
Definition unreserved (c : ascii) : bool :=
  let n := code_point c in
  ((65 <=? n) && (n <=? 90)) || ((97 <=? n) && (n <=? 122))
  || ((48 <=? n) && (n <=? 57))
  || (n =? 95) || (n =? 46) || (n =? 45) || (n =? 126).

Definition hex_digit (n : Z) : ascii :=
  ascii_of_nat (Z.to_nat (if n <? 10 then 48 + n else 55 + n)).

Definition percent (b : Z) : string :=
  String "%" (String (hex_digit (b / 16)) (String (hex_digit (b mod 16)) "")).

Fixpoint encode_path_segment (segment : string) : string :=
  match segment with
  | EmptyString => EmptyString
  | String c r =>
      let n := code_point c in
      (if unreserved c then String c ""
       else if n <? 128 then percent n
       else percent (192 + n / 64) +:+ percent (128 + n mod 64))
      +:+ encode_path_segment r
  end.

(** [v is not None]. *)
Definition is_not_None (v : pyval) : bool :=
  match v with PNone => false | _ => true end.

(** [{k: v for k, v in params.items() if v is not None}]. *)
Definition strip_None (params : pydict) : pydict :=
  filter (fun kv => is_not_None (snd kv) = true) params.

Section transport.
Variable str_other : pyval -> string.
(** The session and the network behind it. *)
Variable network : Request -> reply.

(** [HTTPClient._handle_response]. *)
Definition _handle_response (resp : Response) : result pyval :=
  let body := match json resp with Some v => v | None => PNone end in
  if ok resp then
    match body with
    | PNone => Ok (PDict [])
    | _ => Ok body
    end
  else
    let message := PStr "API request failed" in
    let '(message, code) :=
      match body with
      | PDict ((_ :: _) as o) =>
          (default (default message (dict_get "message" o))
             (dict_get "error" o),
           default PNone (dict_get "code" o))
      | _ => (message, PNone)
      end in
    Raise (ClawPrintError_new (py_str str_other message)
             (Some (status_code resp)) code body).

(** [self._session.request(...)]. *)
Definition session_request (rq : Request) : M reply :=
  ([rq], Ok (network rq)).

(** [HTTPClient.request]. *)
Definition request (self : HTTPClient) (method path : string)
    (params : option pydict) (json_body : pyval) (authenticated : bool)
    : M pyval :=
  let params :=
    match params with
    | Some ((_ :: _) as p) => Some (strip_None p)
    | _ => params
    end in
  do r <- session_request
         {| rq_method := method;
            rq_url := _url self path;
            rq_params :=
              match params with
              | Some (_ :: _) => params
              | _ => None
              end;
            rq_json := json_body;
            rq_headers := _headers self authenticated;
            rq_timeout := timeout self |} ;
  match r with
  | Failed exc =>
      if is_ConnectionError exc then
        raise (ClawPrintError_new ("Connection error: " +:+ exc_text exc)
                 None (PStr "connection_error") PNone)
      else if is_Timeout exc then
        raise (ClawPrintError_new
                 ("Request timed out after "
                  +:+ py_str str_other (timeout self) +:+ "s")
                 None (PStr "timeout") PNone)
      else
        raise (ClawPrintError_new ("Request failed: " +:+ exc_text exc)
                 None (PStr "request_error") PNone)
  | Responded resp => lift (_handle_response resp)
  end.

Definition get (self : HTTPClient) (path : string)
    (params : option pydict) (authenticated : bool) : M pyval :=
  request self "GET" path params PNone authenticated.

Definition post (self : HTTPClient) (path : string) (json_body : pyval)
    (authenticated : bool) : M pyval :=
  request self "POST" path None json_body authenticated.

Definition patch (self : HTTPClient) (path : string) (json_body : pyval)
    (authenticated : bool) : M pyval :=
  request self "PATCH" path None json_body authenticated.
End transport.

(** ** Public client ([client.py]) *)

Record ClawPrint := {
  api_key : option string;
  _http : HTTPClient
}.

(** [a or b] on two [Optional[str]]. *)
Definition str_or (a b : option string) : option string :=
  if str_truthy a then a else b.

(** [ClawPrint.__init__], with [os.environ] as a map. *)
Definition ClawPrint_new (environ : gmap string string)
    (api_key : option string) (base_url : string) (timeout : pyval)
    : ClawPrint :=
  let key := str_or api_key (environ !! "CLAWPRINT_API_KEY") in
  {| api_key := key; _http := HTTPClient_new key base_url timeout |}.

(** [ClawPrint._require_auth]. *)
Definition _require_auth (self : ClawPrint) (method_name : string)
    : result unit :=
  if negb (str_truthy (api_key self)) then
    Raise (AuthenticationError_new method_name)
  else Ok tt.

(** [ClawPrint._require]. *)
Definition _require (name : string) (value : pyval) : result unit :=
  match value with
  | PNone =>
      Raise (ValidationError_new
               ("'" +:+ name +:+ "' is required and cannot be empty."))
  | PStr s =>
      if String.eqb (strip s) "" then
        Raise (ValidationError_new
                 ("'" +:+ name +:+ "' is required and cannot be empty."))
      else Ok tt
  | _ => Ok tt
  end.

(** An argument of type [Optional[str]], [Optional[int]], [Optional[float]]
    as a Python value. A parameter annotated [str] that [_require] tests for
    [None] is an [option string] as well. *)
Definition opt_str (s : option string) : pyval := from_option PStr PNone s.
Definition opt_int (n : option Z) : pyval := from_option PInt PNone n.
Definition opt_float (f : option (Z * Z)) : pyval :=
  from_option (fun me => PFloat (fst me) (snd me)) PNone f.

(** The keyword arguments of [search]. *)
Record search_args := {
  q : option string;
  domain : option string;
  protocol : option string;
  max_cost : option (Z * Z);
  min_verification : option string;
  sort : option string;
  limit : option Z;
  offset : option Z
}.

(** The keyword arguments of [report]. *)
Record report_args := {
  provider_handle : option string;
  requester_handle : option string;
  report_protocol : option string;
  report_outcome : option string;
  rating : option Z;
  external_tx_id : option string;
  response_time_ms : option Z;
  cost_actual : option (Z * Z)
}.

(** [body.update(extra)]. *)
Definition dict_update (body extra : pydict) : pydict :=
  fold_left (fun b kv => dict_set (fst kv) (snd kv) b) extra body.

(** [if v is not None: body[k] = v]. *)
Definition set_if_given (k : string) (v : pyval) (body : pydict) : pydict :=
  if is_not_None v then dict_set k v body else body.

Section client.
Variable str_other : pyval -> string.
Variable network : Request -> reply.

Definition search (self : ClawPrint) (a : search_args) : M pyval :=
  let params :=
    [("q", opt_str (q a));
     ("domain", opt_str (domain a));
     ("protocol", opt_str (protocol a));
     ("max_cost", opt_float (max_cost a));
     ("min_verification", opt_str (min_verification a));
     ("sort", opt_str (sort a));
     ("limit", opt_int (limit a));
     ("offset", opt_int (offset a))] in
  do data <- get str_other network (_http self) "/v1/agents/search"
               (Some params) false;
  lift (APIObject_new SearchResponse data).

(** After [_require] has passed, [handle] is a string. *)
Definition trust (self : ClawPrint) (handle : option string) : M pyval :=
  run lift (_require "handle" (opt_str handle));
  let safe := encode_path_segment (default "" handle) in
  do data <- get str_other network (_http self) ("/v1/trust/" +:+ safe)
               None false;
  lift (APIObject_new TrustResponse data).

Definition register (self : ClawPrint) (name handle description : option string)
    (services protocols : pyval) (extra : pydict) : M pyval :=
  run lift (_require "name" (opt_str name));
  run lift (_require "handle" (opt_str handle));
  run lift (_require "description" (opt_str description));
  let body :=
    [("name", opt_str name); ("handle", opt_str handle);
     ("description", opt_str description)] in
  let body := set_if_given "services" services body in
  let body := set_if_given "protocols" protocols body in
  let body := dict_update body extra in
  do data <- post str_other network (_http self) "/v1/agents" (PDict body)
               false;
  lift (APIObject_new RegisterResponse data).

Definition update (self : ClawPrint) (handle : option string)
    (fields : pydict) : M pyval :=
  run lift (_require_auth self "update");
  run lift (_require "handle" (opt_str handle));
  run (if truthy (PDict fields) then ret tt
       else raise (ValidationError_new
                     "At least one field is required for update."));
  let safe := encode_path_segment (default "" handle) in
  do data <- patch str_other network (_http self) ("/v1/agents/" +:+ safe)
               (PDict fields) true;
  lift (APIObject_new UpdateResponse data).

Definition report (self : ClawPrint) (a : report_args) : M pyval :=
  run lift (_require_auth self "report");
  run lift (_require "provider_handle" (opt_str (provider_handle a)));
  run lift (_require "requester_handle" (opt_str (requester_handle a)));
  run lift (_require "protocol" (opt_str (report_protocol a)));
  run lift (_require "outcome" (opt_str (report_outcome a)));
  let body :=
    [("provider_handle", opt_str (provider_handle a));
     ("requester_handle", opt_str (requester_handle a));
     ("protocol", opt_str (report_protocol a));
     ("outcome", opt_str (report_outcome a))] in
  do body <- match rating a with
             | Some r =>
                 if negb ((1 <=? r) && (r <=? 5)) then
                   raise (ValidationError_new
                            "rating must be between 1 and 5.")
                 else ret (dict_set "rating" (PInt r) body)
             | None => ret body
             end;
  let body := set_if_given "external_tx_id" (opt_str (external_tx_id a)) body in
  let body := set_if_given "response_time_ms" (opt_int (response_time_ms a)) body in
  let body := set_if_given "cost_actual" (opt_float (cost_actual a)) body in
  do data <- post str_other network (_http self) "/v1/transactions/report"
               (PDict body) true;
  lift (APIObject_new ReportResponse data).

Definition domains (self : ClawPrint) : M pyval :=
  do data <- get str_other network (_http self) "/v1/domains" None false;
  lift (APIObject_new DomainsResponse data).

Definition scan (self : ClawPrint) (content : option string) : M pyval :=
  run lift (_require_auth self "scan");
  run lift (_require "content" (opt_str content));
  do data <- post str_other network (_http self) "/v1/security/scan"
               (PDict [("content", opt_str content)]) true;
  lift (APIObject_new ScanResponse data).

Definition discover (self : ClawPrint) : M pyval :=
  do data <- get str_other network (_http self) "/v1/discover" None false;
  lift (APIObject_new DiscoverResponse data).

(** A call of one public method, and the part of each method before the
    response envelope is built. *)
Inductive call :=
| Search (a : search_args)
| Trust (handle : option string)
| Register (name handle description : option string)
    (services protocols : pyval) (extra : pydict)
| Update (handle : option string) (fields : pydict)
| Report (a : report_args)
| Domains
| Scan (content : option string)
| Discover.

Definition invoke (self : ClawPrint) (c : call) : M pyval :=
  match c with
  | Search a => search self a
  | Trust h => trust self h
  | Register n h d s p e => register self n h d s p e
  | Update h f => update self h f
  | Report a => report self a
  | Domains => domains self
  | Scan c => scan self c
  | Discover => discover self
  end.

(** The methods that call [_require_auth], and the name each passes. *)
Definition authenticated_name (c : call) : option string :=
  match c with
  | Update _ _ => Some "update"
  | Report _ => Some "report"
  | Scan _ => Some "scan"
  | _ => None
  end.
End client.

(** ** The adapter's private client ([tools/clawprint/_client.py]) *)

Module Adapter.
Record ClawPrintClient := {
  api_key : option string;
  base_url : string;
  timeout : pyval
}.

(** [ClawPrintClient.__init__]. *)
Definition ClawPrintClient_new (environ : gmap string string)
    (api_key : option string) (base_url : string) (timeout : pyval)
    : ClawPrintClient :=
  {| api_key := str_or api_key (environ !! "CLAWPRINT_API_KEY");
     base_url := rstrip_slash base_url;
     timeout := timeout |}.

Section adapter.
Variable str_other : pyval -> string.
(** [json.dumps]. *)
Variable json_dumps : pyval -> string.

(** [ClawPrintAPIError(status_code, detail)]: the [detail] attribute is
    kept in [exc_body], the text given to [Exception] in
    [exc_message]. *)
Definition ClawPrintAPIError_new (status_code : Z) (detail : pyval)
    : exn :=
  {| exc_cls := ClawPrintAPIError;
     exc_message :=
       "ClawPrint API error " +:+ py_str str_other (PInt status_code)
       +:+ ": " +:+ py_str str_other detail;
     exc_status := Some status_code;
     exc_code := PNone;
     exc_body := detail |}.

(** [ClawPrintClient._headers]. *)
Definition _headers (self : ClawPrintClient) (auth_required : bool)
    : result (gmap string string) :=
  if auth_required then
    if negb (str_truthy (api_key self)) then
      Raise (ClawPrintAPIError_new 401
               (PStr ("This endpoint requires an API key. "
                      +:+ "Pass api_key= or set CLAWPRINT_API_KEY.")))
    else
      Ok (<["Authorization" := "Bearer " +:+ default "" (api_key self)]> ∅)
  else Ok ∅.

(** [a or b]. *)
Definition py_or (a b : pyval) : pyval := if truthy a then a else b.

(** [ClawPrintClient._handle_response]. On the error path every
    exception is caught: a body that does not parse, or that has no
    [get], gives the first 500 characters of the text. *)
Definition _handle_response (resp : Response) : result pyval :=
  if ok resp then
    if status_code resp =? 204 then Ok PNone
    else
      match json resp with
      | Some v => Ok v
      | None => Raise (builtin_error ValueError "body is not JSON")
      end
  else
    let detail :=
      match json resp with
      | Some (PDict o) =>
          py_or (default PNone (dict_get "detail" o))
            (py_or (default PNone (dict_get "message" o))
               (PStr (json_dumps (PDict o))))
      | _ => PStr (substring 0 500 (text resp))
      end in
    Raise (ClawPrintAPIError_new (status_code resp) detail).

(** *** The methods of the adapter's client *)

(** The session and the network behind it. *)
Variable network : Request -> reply.
(** What a method raises: an exception built here, or the exception of
    [requests] that the session call lets through; no method has a [try]
    around its call. *)
Inductive raised :=
| Own (e : exn)
| Propagated (exc : RequestException).

(** The requests handed to the session, and the value returned or the
    exception raised. *)
Definition answer (T : Type) : Type := (list Request * (raised + T))%type.

(** [self._handle_response(self._session.get/post(url, ...,
    headers=self._headers(...), timeout=self.timeout))]: the headers are
    evaluated among the arguments, before the session is called. *)
Definition send (self : ClawPrintClient) (method url : string)
    (params : option pydict) (json_body : pyval)
    (headers : result (gmap string string)) : answer pyval :=
  match headers with
  | Raise e => ([], inl (Own e))
  | Ok h =>
      let rq := {| rq_method := method; rq_url := url; rq_params := params;
                   rq_json := json_body; rq_headers := h;
                   rq_timeout := timeout self |} in
      ([rq],
       match network rq with
       | Failed exc => inl (Propagated exc)
       | Responded resp =>
           match _handle_response resp with
           | Ok v => inr v
           | Raise e => inl (Own e)
           end
       end)
  end.

(** [ClawPrintClient.search_agents]. *)
Definition search_agents (self : ClawPrintClient) (query : string)
    (domain : option string) (min_score : option (Z * Z)) : answer pyval :=
  let params := [("q", PStr query)] in
  let params :=
    if str_truthy domain then dict_set "domain" (opt_str domain) params
    else params in
  let params := set_if_given "min_score" (opt_float min_score) params in
  send self "GET" (base_url self +:+ "/v1/agents/search") (Some params)
    PNone (_headers self false).

(** [ClawPrintClient.get_agent]. *)
Definition get_agent (self : ClawPrintClient) (handle : string)
    : answer pyval :=
  send self "GET" (base_url self +:+ "/v1/agents/" +:+ handle) None PNone
    (_headers self false).

(** [ClawPrintClient.get_trust]. *)
Definition get_trust (self : ClawPrintClient) (handle : string)
    : answer pyval :=
  send self "GET" (base_url self +:+ "/v1/trust/" +:+ handle) None PNone
    (_headers self false).

(** [ClawPrintClient.list_domains]. *)
Definition list_domains (self : ClawPrintClient) : answer pyval :=
  send self "GET" (base_url self +:+ "/v1/domains") None PNone
    (_headers self false).

(** [ClawPrintClient.create_exchange_request]. *)
Definition create_exchange_request (self : ClawPrintClient)
    (domains : list string) (task : string) (requirements : option pydict)
    : answer pyval :=
  let payload := [("domains", PList (map PStr domains)); ("task", PStr task)] in
  let payload :=
    match requirements with
    | Some ((_ :: _) as r) => dict_set "requirements" (PDict r) payload
    | _ => payload
    end in
  send self "POST" (base_url self +:+ "/v1/exchange/requests") None
    (PDict payload) (_headers self true).

(** [ClawPrintClient.get_exchange_request]. *)
Definition get_exchange_request (self : ClawPrintClient)
    (request_id : string) : answer pyval :=
  send self "GET" (base_url self +:+ "/v1/exchange/requests/" +:+ request_id)
    None PNone (_headers self true).

End adapter.
End Adapter.

(** ** The rest of the envelope's protocol ([types.py]) *)

Section envelope_protocol.
(** [key in v] and [iter(v)] for what is not a dict. *)
Variable in_other : string -> pyval -> result bool.
Variable iter_other : pyval -> result (list string).

(** [self._data], an instance attribute. *)
Definition _data (self : pyval) : result pyval :=
  match getattr self "_data" with
  | Some d => Ok d
  | None => Raise (builtin_error AttributeError "no attribute '_data'")
  end.

(** [_APIObject.__contains__]: [key in self._data]. *)
Definition __contains__ (self : pyval) (key : string) : result bool :=
  match _data self with
  | Raise e => Raise e
  | Ok (PDict o) =>
      Ok (match dict_get key o with Some _ => true | None => false end)
  | Ok d => in_other key d
  end.

(** [_APIObject.__iter__]: [iter(self._data)], the keys in order. *)
Definition __iter__ (self : pyval) : result (list string) :=
  match _data self with
  | Raise e => Raise e
  | Ok (PDict o) => Ok (keys o)
  | Ok d => iter_other d
  end.
End envelope_protocol.

(** The methods that send the key. *)
Definition needs_auth (c : call) : bool :=
  match authenticated_name c with
  | Some _ => true
  | None => false
  end.

(** ** Names and paths used in the statements *)

(** The attribute names [object_setattr] refuses. *)
Definition reserved (name : string) : bool :=
  String.eqb name "__class__" || String.eqb name "__dict__"
  || String.eqb name "__weakref__".

(** No key of a dict, at any depth, is a reserved name. *)
Fixpoint reserved_free (v : pyval) : bool :=
  match v with
  | PList l => forallb reserved_free l
  | PDict o | PObj _ o =>
      forallb (fun kv => negb (reserved (fst kv)) && reserved_free (snd kv)) o
  | _ => true
  end.

(** One step into a value: a field of an object, an element of a list. *)
Inductive step :=
| Field (name : string)
| Index (i : nat).

(** The step into parsed JSON: [d[name]], [l[i]]. *)
Definition json_step (s : step) (v : pyval) : option pyval :=
  match s, v with
  | Field name, PDict o => dict_get name o
  | Index i, PList l => l !! i
  | _, _ => None
  end.

(** The step into a wrapped value: [obj.name] (or [obj[name]]), [l[i]]. *)
Definition env_step (s : step) (v : pyval) : option pyval :=
  match s, v with
  | Field name, PObj _ _ => getitem v name
  | Index i, PList l => l !! i
  | _, _ => None
  end.

Fixpoint json_at (p : list step) (v : pyval) : option pyval :=
  match p with
  | [] => Some v
  | s :: p' => match json_step s v with Some x => json_at p' x | None => None end
  end.

Fixpoint env_at (p : list step) (v : pyval) : option pyval :=
  match p with
  | [] => Some v
  | s :: p' => match env_step s v with Some x => env_at p' x | None => None end
  end.

(** The value a query parameter leaves with, if it leaves at all. *)
Definition sent_param (rq : Request) (name : string) : option pyval :=
  match rq_params rq with
  | Some p => dict_get name p
  | None => None
  end.

(** The request [HTTPClient.request] hands to the session. *)
Definition request_of (self : HTTPClient) (method path : string)
    (params : option pydict) (json_body : pyval) (authenticated : bool)
    : Request :=
  {| rq_method := method;
     rq_url := _url self path;
     rq_params :=
       match params with
       | Some ((_ :: _) as p) =>
           match strip_None p with [] => None | p' => Some p' end
       | _ => None
       end;
     rq_json := json_body;
     rq_headers := _headers self authenticated;
     rq_timeout := timeout self |}.

(** What [HTTPClient.request] makes of the session's reply. *)
Definition reply_result (str_other : pyval -> string) (self : HTTPClient)
    (r : reply) : result pyval :=
  match r with
  | Responded resp => _handle_response str_other resp
  | Failed exc =>
      Raise (ClawPrintError_new
               (if is_ConnectionError exc then
                  "Connection error: " +:+ exc_text exc
                else if is_Timeout exc then
                  "Request timed out after "
                  +:+ py_str str_other (timeout self) +:+ "s"
                else "Request failed: " +:+ exc_text exc)
               None
               (PStr (if is_ConnectionError exc then "connection_error"
                      else if is_Timeout exc then "timeout"
                      else "request_error"))
               PNone)
  end.

(** A required argument that is given: not [None], and not blank once
    stripped. *)
Definition non_empty (v : option string) : Prop :=
  match v with
  | Some s => strip s <> ""
  | None => False
  end.

(** The characters of a string. *)
Definition chars (s : string) : list ascii := list_ascii_of_string s.

(** [n] slashes. *)
Fixpoint slashes (n : nat) : string :=
  match n with
  | O => EmptyString
  | S n' => String "/" (slashes n')
  end.

(** A value [_require] turns down: [None], or a string of white space
    only (the empty string among them). *)
Definition blank (v : pyval) : bool :=
  match v with
  | PNone => true
  | PStr s => forallb isspace (chars s)
  | _ => false
  end.

(** A character that [quote] lets out: an unreserved one, or the percent
    sign of an escape. *)
Definition quoted_char (c : ascii) : bool :=
  unreserved c || Ascii.eqb c "%".

(** What [encode_path_segment] writes for one character of the model. *)
Definition quote_char (c : ascii) : string :=
  let n := code_point c in
  if unreserved c then String c ""
  else if n <? 128 then percent n
  else percent (192 + n / 64) +:+ percent (128 + n mod 64).

(** The value of a hex digit and of an escape [%XX]. *)
Definition hex_value (c : ascii) : option Z :=
  let n := code_point c in
  if (48 <=? n) && (n <=? 57) then Some (n - 48)
  else if (65 <=? n) && (n <=? 70) then Some (n - 55)
  else None.

Definition escape_value (h l : ascii) : option Z :=
  match hex_value h, hex_value l with
  | Some a, Some b => Some (16 * a + b)
  | _, _ => None
  end.

(** A call of one method of the adapter's client. *)
Inductive adapter_call :=
| SearchAgents (query : string) (domain : option string)
    (min_score : option (Z * Z))
| GetAgent (handle : string)
| GetTrust (handle : string)
| ListDomains
| CreateExchangeRequest (domains : list string) (task : string)
    (requirements : option pydict)
| GetExchangeRequest (request_id : string).

Definition adapter_invoke (str_other json_dumps : pyval -> string)
    (network : Request -> reply) (self : Adapter.ClawPrintClient)
    (c : adapter_call) : Adapter.answer pyval :=
  match c with
  | SearchAgents q d m =>
      Adapter.search_agents str_other json_dumps network self q d m
  | GetAgent h => Adapter.get_agent str_other json_dumps network self h
  | GetTrust h => Adapter.get_trust str_other json_dumps network self h
  | ListDomains => Adapter.list_domains str_other json_dumps network self
  | CreateExchangeRequest d t r =>
      Adapter.create_exchange_request str_other json_dumps network self d t r
  | GetExchangeRequest i =>
      Adapter.get_exchange_request str_other json_dumps network self i
  end.

(** The methods of the adapter's client that ask for the key. *)
Definition adapter_needs_auth (c : adapter_call) : bool :=
  match c with
  | CreateExchangeRequest _ _ _ | GetExchangeRequest _ => true
  | _ => false
  end.

(** A stand-in for [str_other] where no float or container is printed. *)
Definition no_repr : pyval -> string := fun _ => "".

(** ** A [str] in full *)

(** The client's model carries a [str] as a string of code points below
    256. What the bindings ask of a [str], [strip] in [_require] and
    [quote] in [encode_path_segment], is given here for every [str], as the
    list of its code points; the functions of the model are these on the
    strings it holds (lemmas [isspace_code_point], [strip_code_points],
    [_require_code_points], [encode_path_segment_quote]). *)
Definition pystr := list Z.

(** The code points of a string of the model. *)
Definition code_points (s : string) : pystr := map code_point (chars s).

(** A code point: U+0000 to U+10FFFF. A [str] holds any of them, the
    surrogates U+D800 to U+DFFF too ([json.loads] delivers a lone one for
    the text ["\ud800"]). *)
Definition is_code_point (c : Z) : bool := (0 <=? c) && (c <=? 1114111).

Definition is_surrogate (c : Z) : bool := (55296 <=? c) && (c <=? 57343).

Definition is_str (s : pystr) : bool := forallb is_code_point s.

(** [str.isspace] for one code point, which is what [str.strip] drops:
    the 29 code points U+0009 to U+000D, U+001C to U+0020, U+0085, U+00A0,
    U+1680, U+2000 to U+200A, U+2028, U+2029, U+202F, U+205F, U+3000. *)
Definition isspace_cp (c : Z) : bool :=
  ((9 <=? c) && (c <=? 13)) || ((28 <=? c) && (c <=? 32))
  || (c =? 133) || (c =? 160) || (c =? 5760)
  || ((8192 <=? c) && (c <=? 8202))
  || (c =? 8232) || (c =? 8233) || (c =? 8239) || (c =? 8287)
  || (c =? 12288).

Fixpoint lstrip_cp (s : pystr) : pystr :=
  match s with
  | [] => []
  | c :: r => if isspace_cp c then lstrip_cp r else s
  end.

Fixpoint rstrip_cp (s : pystr) : pystr :=
  match s with
  | [] => []
  | c :: r =>
      match rstrip_cp r with
      | [] => if isspace_cp c then [] else [c]
      | r' => c :: r'
      end
  end.

(** [s.strip()]. *)
Definition strip_cp (s : pystr) : pystr := rstrip_cp (lstrip_cp s).

(** [ClawPrint._require] on a [str]: [isinstance(value, str) and not
    value.strip()]. *)
Definition _require_str (name : string) (value : pystr) : result unit :=
  match strip_cp value with
  | [] =>
      Raise (ValidationError_new
               ("'" +:+ name +:+ "' is required and cannot be empty."))
  | _ => Ok tt
  end.

(** The bytes of one code point in UTF-8. *)
Definition utf8_char (c : Z) : list Z :=
  if c <? 128 then [c]
  else if c <? 2048 then [192 + c / 64; 128 + c mod 64]
  else if c <? 65536 then
    [224 + c / 4096; 128 + (c / 64) mod 64; 128 + c mod 64]
  else
    [240 + c / 262144; 128 + (c / 4096) mod 64; 128 + (c / 64) mod 64;
     128 + c mod 64].

(** [s.encode("utf-8")], the first thing [quote] does with a [str]; [None]
    stands for the [UnicodeEncodeError] it raises when [s] holds a
    surrogate. *)
Fixpoint utf8 (s : pystr) : option (list Z) :=
  match s with
  | [] => Some []
  | c :: r =>
      if is_surrogate c then None
      else
        match utf8 r with
        | Some bytes => Some (utf8_char c ++ bytes)%list
        | None => None
        end
  end.

(** The characters [quote] never escapes: letters, digits and [_.-~]. *)
Definition is_unreserved (n : Z) : bool :=
  ((65 <=? n) && (n <=? 90)) || ((97 <=? n) && (n <=? 122))
  || ((48 <=? n) && (n <=? 57))
  || (n =? 95) || (n =? 46) || (n =? 45) || (n =? 126).

(** What [quote] writes for one byte: the byte itself when it is an
    unreserved character, else [%XX]. *)
Definition quote_byte (b : Z) : string :=
  if is_unreserved b then String (ascii_of_nat (Z.to_nat b)) ""
  else percent b.

Fixpoint quote_bytes (bytes : list Z) : string :=
  match bytes with
  | [] => ""
  | b :: r => quote_byte b +:+ quote_bytes r
  end.

(** [quote(segment, safe="")], which is all of
    [HTTPClient.encode_path_segment]; [None] stands for the
    [UnicodeEncodeError]. *)
Definition quote (segment : pystr) : option string :=
  quote_bytes <$> utf8 segment.

(** A byte. *)
Definition is_byte (b : Z) : bool := (0 <=? b) && (b <? 256).

(** Reading back what [quote] wrote: the byte at the head of a quoted
    string, and the code point at the head of a UTF-8 sequence, each with
    what follows it. They serve the proof that [quote] loses nothing. *)
Definition unquote_byte (s : string) : option (Z * string) :=
  match s with
  | EmptyString => None
  | String c r =>
      if Ascii.eqb c "%" then
        match r with
        | String h (String l r') =>
            match escape_value h l with
            | Some b => Some (b, r')
            | None => None
            end
        | _ => None
        end
      else Some (code_point c, r)
  end.

Definition utf8_head (bytes : list Z) : option (Z * list Z) :=
  match bytes with
  | [] => None
  | b0 :: r =>
      if b0 <? 128 then Some (b0, r)
      else if b0 <? 224 then
        match r with
        | b1 :: r' => Some ((b0 - 192) * 64 + (b1 - 128), r')
        | _ => None
        end
      else if b0 <? 240 then
        match r with
        | b1 :: b2 :: r' =>
            Some ((b0 - 224) * 4096 + (b1 - 128) * 64 + (b2 - 128), r')
        | _ => None
        end
      else
        match r with
        | b1 :: b2 :: b3 :: r' =>
            Some ((b0 - 240) * 262144 + (b1 - 128) * 4096 + (b2 - 128) * 64
                  + (b3 - 128), r')
        | _ => None
        end
  end.

(** * Properties *)

(** ** Dictionaries *)

Lemma dict_get_set_eq k v d : dict_get k (dict_set k v d) = Some v.
Proof.
  induction d as [|[k' v'] r IH]; simpl.
  - by rewrite String.eqb_refl.
  - destruct (String.eqb k k') eqn:E; simpl.
    + by rewrite String.eqb_refl.
    + by rewrite E.
Qed.

Lemma dict_get_set_ne k k' v d :
  k <> k' -> dict_get k' (dict_set k v d) = dict_get k' d.
Proof.
  intros Hne. induction d as [|[k0 v0] r IH]; simpl.
  - destruct (String.eqb k' k) eqn:E; [|done].
    apply String.eqb_eq in E. congruence.
  - destruct (String.eqb k k0) eqn:E; simpl.
    + apply String.eqb_eq in E. subst k0.
      destruct (String.eqb k' k) eqn:E'; [|done].
      apply String.eqb_eq in E'. congruence.
    + by rewrite IH.
Qed.

Lemma dict_get_None_keys k d : dict_get k d = None <-> ~ In k (keys d).
Proof.
  induction d as [|[k' v'] r IH]; simpl.
  - tauto.
  - destruct (String.eqb k k') eqn:E.
    + apply String.eqb_eq in E. subst. split; [done | tauto].
    + apply String.eqb_neq in E. rewrite IH. split; [|tauto].
      intros H [?|?]; congruence.
Qed.

Lemma dict_get_strip_None k d :
  NoDup (keys d) ->
  dict_get k (strip_None d)
  = match dict_get k d with Some PNone => None | r => r end.
Proof.
  unfold strip_None.
  induction d as [|[k' v'] r IH]; simpl; [done|].
  intros Hnd. apply NoDup_cons in Hnd as [Hnotin Hnd].
  rewrite filter_cons. simpl.
  destruct (String.eqb k k') eqn:E.
  - apply String.eqb_eq in E. subst k'.
    assert (Hr : dict_get k r = None).
    { apply dict_get_None_keys. intros Hin. apply Hnotin.
      by apply list_elem_of_In. }
    case_decide as Hv.
    + simpl. rewrite String.eqb_refl. by destruct v'.
    + rewrite (IH Hnd), Hr. destruct v'; simpl in Hv; congruence.
  - case_decide; simpl; rewrite ?E; exact (IH Hnd).
Qed.

(** ** Response envelope *)

(** Distinct keys of a given value, by computation. *)
Ltac solve_dict_wf :=
  simpl; repeat split;
  try (apply (bool_decide_unpack _); vm_compute; reflexivity).

Lemma object_setattr_free self name value :
  reserved name = false ->
  object_setattr self name value = Ok (dict_set name value self).
Proof.
  unfold reserved, object_setattr. intros H.
  apply orb_false_iff in H as [H H3]. apply orb_false_iff in H as [H1 H2].
  by rewrite H1, H2, H3.
Qed.

Lemma object_setattr_reserved self name value :
  reserved name = true -> exists e, object_setattr self name value = Raise e.
Proof.
  unfold reserved, object_setattr. intros H.
  destruct (String.eqb name "__class__"); [eauto|].
  destruct (String.eqb name "__dict__"); [eauto|].
  destruct (String.eqb name "__weakref__"); [eauto|]. discriminate.
Qed.

Lemma object_setattr_inv self name value self' :
  object_setattr self name value = Ok self' ->
  reserved name = false /\ self' = dict_set name value self.
Proof.
  intros H. destruct (reserved name) eqn:R.
  - destruct (object_setattr_reserved self name value R) as [e He]. congruence.
  - rewrite (object_setattr_free _ _ _ R) in H. by inversion H.
Qed.

Lemma dict_wf_dict cls o :
  (dict_wf (PDict o) <-> NoDup (keys o) /\ Forall (fun kv => dict_wf (snd kv)) o)
  /\ (dict_wf (PObj cls o)
      <-> NoDup (keys o) /\ Forall (fun kv => dict_wf (snd kv)) o).
Proof.
  assert (H : forall o : pydict,
    (fix all (o : pydict) :=
       match o with [] => True | kv :: r => dict_wf (snd kv) /\ all r end) o
    <-> Forall (fun kv => dict_wf (snd kv)) o).
  { clear. induction o as [|kv r IH]; [by split|].
    rewrite Forall_cons, <- IH. tauto. }
  simpl. rewrite H. tauto.
Qed.

Lemma dict_wf_list l : dict_wf (PList l) <-> Forall dict_wf l.
Proof.
  simpl. induction l as [|x r IH]; [by split|].
  rewrite Forall_cons, <- IH. tauto.
Qed.

Lemma dict_get_Forall (P : pyval -> Prop) k (o : pydict) v :
  Forall (fun kv => P (snd kv)) o -> dict_get k o = Some v -> P v.
Proof.
  induction 1 as [|[k' v'] r Hx _ IH]; simpl; [done|].
  destruct (String.eqb k k'); [|exact IH].
  intros [= <-]. exact Hx.
Qed.

Section envelope_props.
Variable wrap : pyval -> result pyval.

(** A name that is not a key of [data] keeps the attribute it had. *)
Lemma init_items_absent items : forall self self' k,
  init_items wrap items self = Ok self' ->
  dict_get k items = None ->
  dict_get k self' = dict_get k self.
Proof.
  induction items as [|[key value] rest IH]; simpl; intros self self' k.
  - by intros [= <-].
  - destruct (wrap value) as [w|]; [|done].
    destruct (object_setattr self key w) as [self1|] eqn:Hset; [|done].
    apply object_setattr_inv in Hset as [_ ->].
    intros Hinit Hk.
    destruct (String.eqb k key) eqn:E; [done|].
    rewrite (IH _ _ _ Hinit Hk). apply dict_get_set_ne.
    apply String.eqb_neq in E. congruence.
Qed.

(** Every key of [data] becomes an attribute holding the wrapped value. *)
Lemma init_items_present items : forall self self' k v,
  NoDup (keys items) ->
  init_items wrap items self = Ok self' ->
  dict_get k items = Some v ->
  exists w, wrap v = Ok w /\ dict_get k self' = Some w.
Proof.
  induction items as [|[key value] rest IH]; simpl; intros self self' k v;
    [done|].
  intros Hnd. apply NoDup_cons in Hnd as [Hnotin Hnd].
  destruct (wrap value) as [w|] eqn:Hw; [|done].
  destruct (object_setattr self key w) as [self1|] eqn:Hset; [|done].
  apply object_setattr_inv in Hset as [_ ->].
  intros Hinit. destruct (String.eqb k key) eqn:E.
  - apply String.eqb_eq in E. subst key. intros [= <-].
    exists w. split; [done|].
    rewrite (init_items_absent _ _ _ k Hinit); [apply dict_get_set_eq|].
    apply dict_get_None_keys. intros Hin. apply Hnotin.
    by apply list_elem_of_In.
  - intros Hk. exact (IH _ _ _ _ Hnd Hinit Hk).
Qed.

(** The loop goes through when every value wraps and no key is reserved. *)
Lemma init_items_total items : forall self,
  Forall (fun kv => reserved (fst kv) = false
                    /\ exists w, wrap (snd kv) = Ok w) items ->
  exists self', init_items wrap items self = Ok self'.
Proof.
  induction items as [|[key value] rest IH]; simpl; intros self Hall;
    [eauto|].
  apply Forall_cons in Hall as [[Hres [w Hw]] Hall]. simpl in *.
  rewrite Hw, (object_setattr_free _ _ _ Hres). by apply IH.
Qed.

Lemma wrap_list_lookup l : forall ws i v,
  wrap_list wrap l = Ok ws ->
  l !! i = Some v ->
  exists w, wrap v = Ok w /\ ws !! i = Some w.
Proof.
  induction l as [|x r IH]; simpl; intros ws i v; [done|].
  destruct (wrap x) as [w|] eqn:Hw; [|done].
  destruct (wrap_list wrap r) as [ws'|] eqn:Hr; [|done].
  intros [= <-]. destruct i as [|i]; simpl.
  - intros [= <-]. eauto.
  - intros Hi. exact (IH _ _ _ eq_refl Hi).
Qed.

Lemma wrap_list_total l :
  Forall (fun v => exists w, wrap v = Ok w) l ->
  exists ws, wrap_list wrap l = Ok ws.
Proof.
  induction 1 as [|x r [w Hw] _ [ws Hws]]; simpl; [eauto|].
  rewrite Hw, Hws. eauto.
Qed.
End envelope_props.

(** A field of the data is an attribute of the envelope, wrapped. *)
Lemma init_dict_field cls o env k v :
  NoDup (keys o) ->
  init_dict _wrap cls o = Ok env ->
  dict_get k o = Some v ->
  exists w, _wrap v = Ok w /\ getitem env k = Some w.
Proof.
  unfold init_dict. intros Hnd.
  destruct (init_items _wrap o _) as [self|] eqn:Hinit; [|done].
  intros [= <-] Hk. simpl.
  exact (init_items_present _ _ _ _ _ _ Hnd Hinit Hk).
Qed.

(** What [_wrap] makes of each kind of value. *)
Lemma _wrap_shape v w :
  _wrap v = Ok w ->
  match v with
  | PDict _ => exists attrs, w = PObj _APIObject attrs
  | PList l => exists ws, w = PList ws
  | _ => w = v
  end.
Proof.
  destruct v; simpl; try (by intros [= <-]).
  - destruct (wrap_list _wrap l); [|done]. intros [= <-]. eauto.
  - unfold init_dict. destruct (init_items _wrap o _); [|done].
    intros [= <-]. eauto.
Qed.

(** One step into the data is one step into the wrapped value. *)
Lemma _wrap_step s v w x :
  dict_wf v ->
  _wrap v = Ok w ->
  json_step s v = Some x ->
  exists y, env_step s w = Some y /\ _wrap x = Ok y.
Proof.
  intros Hwf Hw Hs. destruct s as [name|i], v; simpl in Hs; try done.
  - apply (dict_wf_dict _APIObject) in Hwf as [Hnd _].
    destruct (_wrap_shape _ _ Hw) as [attrs ->]. simpl in Hw.
    destruct (init_dict_field _ _ _ _ _ Hnd Hw Hs) as (y & Hy & Hget).
    exists y. by split.
  - simpl in Hw. destruct (wrap_list _wrap l) as [ws|] eqn:Hl; [|done].
    injection Hw as <-.
    destruct (wrap_list_lookup _ _ _ _ _ Hl Hs) as (y & Hy & Hget).
    exists y. by split.
Qed.

Lemma dict_wf_step s v x : dict_wf v -> json_step s v = Some x -> dict_wf x.
Proof.
  intros Hwf Hs. destruct s as [name|i], v; simpl in Hs; try done.
  - apply (dict_wf_dict _APIObject) in Hwf as [_ Hall].
    exact (dict_get_Forall dict_wf _ _ _ Hall Hs).
  - apply dict_wf_list in Hwf.
    rewrite Forall_forall in Hwf. apply Hwf.
    apply list_elem_of_lookup. eauto.
Qed.

(** Any path into the data is a path into the wrapped value. *)
Lemma _wrap_at p : forall v w x,
  dict_wf v ->
  _wrap v = Ok w ->
  json_at p v = Some x ->
  exists y, env_at p w = Some y /\ _wrap x = Ok y.
Proof.
  induction p as [|s p IH]; simpl; intros v w x Hwf Hw.
  - intros [= <-]. eauto.
  - destruct (json_step s v) as [x1|] eqn:Hs; [|done]. intros Hx.
    destruct (_wrap_step _ _ _ _ Hwf Hw Hs) as (y1 & Hy1 & Hw1).
    rewrite Hy1. exact (IH _ _ _ (dict_wf_step _ _ _ Hwf Hs) Hw1 Hx).
Qed.

(** Wrapping goes through when no key is reserved. *)
Lemma _wrap_total v : reserved_free v = true -> exists w, _wrap v = Ok w.
Proof.
  induction v as [| | | | |l IH|o IH|cls attrs IH] using pyval_nested_ind;
    simpl; intros Hfree; eauto.
  - destruct (wrap_list_total _wrap l) as [ws Hws]; [|rewrite Hws; eauto].
    rewrite forallb_forall in Hfree. rewrite Forall_forall in IH |- *.
    intros v Hv. apply IH; [done|]. apply Hfree. by apply list_elem_of_In.
  - unfold init_dict.
    destruct (init_items_total _wrap o [("_data", PDict o)]) as [self Hs];
      [|rewrite Hs; eauto].
    rewrite forallb_forall in Hfree. rewrite Forall_forall in IH |- *.
    intros kv Hkv.
    specialize (Hfree kv (proj1 (list_elem_of_In _ _) Hkv)).
    apply andb_true_iff in Hfree as [Hres Hfree].
    split; [by apply negb_true_iff|]. by apply IH.
Qed.

Lemma envelope_paths cls o :
  reserved_free (PDict o) = true ->
  dict_wf (PDict o) ->
  exists env,
    APIObject_new cls (PDict o) = Ok env /\
    forall s p x,
      json_at (s :: p) (PDict o) = Some x ->
      exists y,
        env_at (s :: p) env = Some y /\ _wrap x = Ok y /\
        match x with
        | PDict _ => exists attrs, y = PObj _APIObject attrs
        | PList _ => exists ws, y = PList ws
        | _ => y = x
        end.
Proof.
  intros Hfree Hwf. simpl in Hfree.
  assert (Hinit : exists self,
             init_items _wrap o [("_data", PDict o)] = Ok self).
  { apply init_items_total. rewrite forallb_forall in Hfree.
    rewrite Forall_forall. intros kv Hkv.
    specialize (Hfree kv (proj1 (list_elem_of_In _ _) Hkv)).
    apply andb_true_iff in Hfree as [Hres Hfree].
    split; [by apply negb_true_iff | by apply _wrap_total]. }
  destruct Hinit as [self Hinit].
  exists (PObj cls self). split.
  { simpl. unfold init_dict. by rewrite Hinit. }
  intros s p x. cbn [json_at env_at].
  destruct (json_step s (PDict o)) as [x1|] eqn:Hs; [|done]. intros Hx.
  destruct s as [name|i]; simpl in Hs; [|done].
  destruct (proj1 (proj1 (dict_wf_dict cls o)) Hwf) as [Hnd _].
  destruct (init_items_present _ _ _ _ _ _ Hnd Hinit Hs) as (y1 & Hy1 & Hget).
  cbn [env_step getitem getattr]. rewrite Hget.
  assert (Hwf1 : dict_wf x1) by exact (dict_wf_step (Field name) _ _ Hwf Hs).
  destruct (_wrap_at p _ _ _ Hwf1 Hy1 Hx) as (y & Hy & Hwy).
  exists y. split; [done|]. split; [done|].
  exact (_wrap_shape _ _ Hwy).
Qed.

(** X6. For data without a reserved key, the envelope is built, and every
    value of the data, at any depth, under objects and lists, is found in
    the envelope under the same names and indices, wrapped: an object as an
    [_APIObject], a list as a list, anything else as itself. *)
Theorem envelope_addressable cls o :
  reserved_free (PDict o) = true ->
  dict_wf (PDict o) ->
  exists env,
    APIObject_new cls (PDict o) = Ok env /\
    forall s p x,
      json_at (s :: p) (PDict o) = Some x ->
      exists y,
        env_at (s :: p) env = Some y /\ _wrap x = Ok y /\
        match x with
        | PDict _ => exists attrs, y = PObj _APIObject attrs
        | PList _ => exists ws, y = PList ws
        | _ => y = x
        end.
Proof. apply envelope_paths. Qed.

Lemma to_dict_of_envelope dict_other cls o env :
  APIObject_new cls (PDict o) = Ok env ->
  dict_get "_data" o = None ->
  dict_get "to_dict" o = None ->
  to_dict dict_other env = Ok (PDict o).
Proof.
  simpl. unfold init_dict.
  destruct (init_items _wrap o _) as [self|] eqn:Hinit; [|done].
  intros [= <-] Hdata Hto. unfold to_dict. simpl.
  rewrite (init_items_absent _ _ _ _ "to_dict" Hinit Hto).
  rewrite (init_items_absent _ _ _ _ "_data" Hinit Hdata).
  reflexivity.
Qed.

(** X7. For data with neither [_data] nor [to_dict] among its top-level keys,
    [to_dict] gives the data back. *)
Theorem to_dict_roundtrip dict_other cls o env :
  APIObject_new cls (PDict o) = Ok env ->
  dict_get "_data" o = None ->
  dict_get "to_dict" o = None ->
  to_dict dict_other env = Ok (PDict o).
Proof. apply to_dict_of_envelope. Qed.

(** C5. The claim wants every object-valued field, at any depth, to become
    a nested envelope and every scalar to pass through. For the parsed
    object [{"handle": "a", "meta": {"__class__": "Agent"}}] the field
    [meta] becomes no envelope and [handle] is not passed through: building
    the envelope raises [TypeError], because the key [__class__] is handed
    to [object.__setattr__] as an attribute name. *)
Theorem reserved_key_breaks_wrapping :
  is_json (PDict [("handle", PStr "a");
                  ("meta", PDict [("__class__", PStr "Agent")])]) = true /\
  dict_wf (PDict [("handle", PStr "a");
                  ("meta", PDict [("__class__", PStr "Agent")])]) /\
  APIObject_new TrustResponse
    (PDict [("handle", PStr "a");
            ("meta", PDict [("__class__", PStr "Agent")])])
  = Raise (builtin_error TypeError "__class__ must be set to a class").
Proof.
  split; [reflexivity|]. split; [|reflexivity]. solve_dict_wf.
Qed.

(** C6. The claim wants [to_dict] of the envelope built from [d] to equal
    [d]. For [d = {"handle": "a", "to_dict": 1}] the envelope is built, the
    key [to_dict] is stored as an instance attribute and hides the method:
    calling [to_dict()] raises [TypeError] whatever [dict] does. *)
Theorem to_dict_key_breaks_roundtrip :
  exists env,
    APIObject_new ReportResponse
      (PDict [("handle", PStr "a"); ("to_dict", PInt 1)]) = Ok env /\
    getattr env "to_dict" = Some (PInt 1) /\
    forall dict_other,
      to_dict dict_other env
      = Raise (builtin_error TypeError "object is not callable").
Proof.
  eexists. split; [reflexivity|]. split; reflexivity.
Qed.

(** The key [_data] replaces the stored data by its own wrapped value:
    [to_dict] is then [dict] of that value, not a copy of the data. *)
Lemma data_key_overwrites_data dict_other :
  exists env,
    APIObject_new ReportResponse (PDict [("_data", PList [])]) = Ok env /\
    to_dict dict_other env = dict_other (PList []).
Proof. eexists. split; reflexivity. Qed.

(** ** HTTP transport *)

Lemma requests_ok_false status :
  requests_ok status = false <-> 400 <= status < 600.
Proof. unfold requests_ok. rewrite negb_false_iff, andb_true_iff. lia. Qed.

Lemma requests_ok_2xx status : 200 <= status < 300 -> requests_ok status = true.
Proof.
  intros H. destruct (requests_ok status) eqn:E; [done|].
  apply requests_ok_false in E. lia.
Qed.

Section transport_props.
Variable str_other : pyval -> string.
Variable network : Request -> reply.

(** One call of [request] is one request to the session, and its result
    is read off the reply. *)
Lemma request_eq self method path params json_body authenticated :
  request str_other network self method path params json_body authenticated
  = ([request_of self method path params json_body authenticated],
     reply_result str_other self
       (network (request_of self method path params json_body authenticated))).
Proof.
  unfold request, request_of, reply_result, bind, session_request.
  assert (Hp :
    match
      match params with
      | Some ((_ :: _) as p) => Some (strip_None p)
      | _ => params
      end
    with
    | Some (_ :: _) =>
        match params with
        | Some ((_ :: _) as p) => Some (strip_None p)
        | _ => params
        end
    | _ => None
    end
    = match params with
      | Some ((_ :: _) as p) =>
          match strip_None p with [] => None | p' => Some p' end
      | _ => None
      end).
  { destruct params as [[|kv r]|]; [done| |done].
    by destruct (strip_None (kv :: r)). }
  rewrite Hp.
  destruct (network _) as [resp|exc]; simpl.
  - by destruct (_handle_response str_other resp).
  - by destruct (is_ConnectionError exc), (is_Timeout exc).
Qed.

Lemma request_issued self method path params json_body authenticated :
  issued (request str_other network self method path params json_body
            authenticated)
  = [request_of self method path params json_body authenticated].
Proof. by rewrite request_eq. Qed.

(** The error built from a response that is not [ok]. *)
Lemma error_response_shape resp :
  ok resp = false ->
  _handle_response str_other resp
  = Raise
      (ClawPrintError_new
         (py_str str_other
            (match json resp with
             | Some (PDict o) =>
                 match dict_get "error" o, dict_get "message" o with
                 | Some e, _ => e
                 | None, Some m => m
                 | None, None => PStr "API request failed"
                 end
             | _ => PStr "API request failed"
             end))
         (Some (status_code resp))
         (match json resp with
          | Some (PDict o) => default PNone (dict_get "code" o)
          | _ => PNone
          end)
         (default PNone (json resp))).
Proof.
  unfold _handle_response. intros ->.
  destruct (json resp) as [[| | | | | |[|kv o]|]|]; try reflexivity.
  all: simpl; destruct kv as [k v]; set (d := (k, v) :: o).
  all: by destruct (dict_get "error" d), (dict_get "message" d).
Qed.

(** The query parameters of the request that leaves. *)
Lemma request_sent_param self method path params json_body authenticated k :
  NoDup (keys params) ->
  sent_param
    (request_of self method path (Some params) json_body authenticated) k
  = match dict_get k params with Some PNone => None | r => r end.
Proof.
  intros Hnd. unfold sent_param, request_of. cbn [rq_params].
  destruct params as [|kv r]; [done|].
  rewrite <- (dict_get_strip_None k (kv :: r) Hnd).
  by destruct (strip_None (kv :: r)).
Qed.
End transport_props.

(** X11. The error of a response that [requests] marks as failed: the status is
    the response's, the message is the body's [error], else its [message],
    else the fallback; the code is the body's [code]; the body is the
    parsed body, [None] when it does not parse. *)
Lemma failed_response_raises str_other resp :
  from_requests resp ->
  400 <= status_code resp < 600 ->
  exists e,
    _handle_response str_other resp = Raise e /\
    exc_cls e = ClawPrintError /\
    exc_status e = Some (status_code resp) /\
    exc_body e = default PNone (json resp) /\
    exc_code e
    = match json resp with
      | Some (PDict o) => default PNone (dict_get "code" o)
      | _ => PNone
      end /\
    exc_message e
    = py_str str_other
        (match json resp with
         | Some (PDict o) =>
             match dict_get "error" o, dict_get "message" o with
             | Some e, _ => e
             | None, Some m => m
             | None, None => PStr "API request failed"
             end
         | _ => PStr "API request failed"
         end).
Proof.
  intros Hreq Hstatus. eexists. split.
  - apply error_response_shape. rewrite Hreq. by apply requests_ok_false.
  - repeat split.
Qed.

(** What [_handle_response] returns for a 2xx response. *)
Lemma _handle_response_2xx str_other resp :
  from_requests resp ->
  200 <= status_code resp < 300 ->
  _handle_response str_other resp
  = Ok (match json resp with
        | None | Some PNone => PDict []
        | Some body => body
        end).
Proof.
  intros Hreq Hstatus.
  unfold _handle_response. rewrite Hreq, (requests_ok_2xx _ Hstatus).
  by destruct (json resp) as [[]|].
Qed.

(** C2. The claim wants an API error for every response that is not 2xx.
    A 304 response is not 2xx, [requests] gives it [ok = True], and
    [_handle_response] returns: the empty mapping when the body does not
    parse, the body itself when it does, even one with an [error] field. *)
Theorem status_304_is_returned_not_raised :
  from_requests
    {| status_code := 304; ok := true; json := None; text := "" |} /\
  from_requests
    {| status_code := 304; ok := true;
       json := Some (PDict [("error", PStr "stale")]); text := "" |} /\
  forall str_other,
    _handle_response str_other
      {| status_code := 304; ok := true; json := None; text := "" |}
    = Ok (PDict []) /\
    _handle_response str_other
      {| status_code := 304; ok := true;
         json := Some (PDict [("error", PStr "stale")]); text := "" |}
    = Ok (PDict [("error", PStr "stale")]).
Proof. repeat split. Qed.

(** C3, as the claim states it. In the SDK a 200 response whose body is
    the JSON text [null] parses, to [None], and the result is not that
    parsed body but the empty mapping. In the adapter a 204 response with
    an empty body gives [None], not the empty mapping, and a 200 response
    whose body does not parse is not tolerated: the parser's [ValueError]
    comes out. *)
Lemma null_body_is_not_returned :
  from_requests
    {| status_code := 200; ok := true; json := Some PNone; text := "null" |} /\
  _handle_response no_repr
    {| status_code := 200; ok := true; json := Some PNone; text := "null" |}
  = Ok (PDict []) /\
  _handle_response no_repr
    {| status_code := 200; ok := true; json := Some PNone; text := "null" |}
  <> Ok PNone /\
  from_requests
    {| status_code := 204; ok := true; json := None; text := "" |} /\
  Adapter._handle_response no_repr no_repr
    {| status_code := 204; ok := true; json := None; text := "" |}
  = Ok PNone /\
  Adapter._handle_response no_repr no_repr
    {| status_code := 204; ok := true; json := None; text := "" |}
  <> Ok (PDict []) /\
  from_requests
    {| status_code := 200; ok := true; json := None; text := "<html>" |} /\
  Adapter._handle_response no_repr no_repr
    {| status_code := 200; ok := true; json := None; text := "<html>" |}
  = Raise (builtin_error ValueError "body is not JSON").
Proof. repeat split; discriminate. Qed.

(** C3, amended. For every 2xx response the SDK's transport succeeds:
    [HTTPClient._handle_response], and with it [HTTPClient.request], raises
    nothing and returns the empty mapping when the body does not parse or
    parses to [None] (the JSON [null]), and the parsed body in every other
    case. The adapter's [ClawPrintClient._handle_response], and with it
    every method of the adapter's client, returns [None] for status 204
    whatever the body; for every other 2xx status it returns the parsed
    body, [None] for the JSON [null], and raises the parser's [ValueError]
    when the body does not parse. *)
Theorem success_response_result str_other json_dumps network resp :
  from_requests resp ->
  200 <= status_code resp < 300 ->
  _handle_response str_other resp
  = Ok (match json resp with
        | None | Some PNone => PDict []
        | Some body => body
        end) /\
  (forall self method path params json_body authenticated,
     network (request_of self method path params json_body authenticated)
     = Responded resp ->
     outcome
       (request str_other network self method path params json_body
          authenticated)
     = Ok (match json resp with
           | None | Some PNone => PDict []
           | Some body => body
           end)) /\
  Adapter._handle_response str_other json_dumps resp
  = (if status_code resp =? 204 then Ok PNone
     else match json resp with
          | Some body => Ok body
          | None => Raise (builtin_error ValueError "body is not JSON")
          end) /\
  (forall self c rq,
     fst (adapter_invoke str_other json_dumps network self c) = [rq] ->
     network rq = Responded resp ->
     snd (adapter_invoke str_other json_dumps network self c)
     = if status_code resp =? 204 then inr PNone
       else match json resp with
            | Some body => inr body
            | None =>
                inl (Adapter.Own
                       (builtin_error ValueError "body is not JSON"))
            end).
Proof.
  intros Hreq Hstatus.
  pose proof (_handle_response_2xx str_other resp Hreq Hstatus) as H.
  assert (Hok : ok resp = true).
  { rewrite Hreq. by apply requests_ok_2xx. }
  assert (Ha : Adapter._handle_response str_other json_dumps resp
               = (if status_code resp =? 204 then Ok PNone
                  else match json resp with
                       | Some body => Ok body
                       | None =>
                           Raise (builtin_error ValueError "body is not JSON")
                       end)).
  { unfold Adapter._handle_response. by rewrite Hok. }
  split; [exact H|]. split; [|split; [exact Ha|]].
  - intros self method path params json_body authenticated Hnet.
    rewrite request_eq. unfold outcome. simpl. by rewrite Hnet.
  - intros self c rq Hrq Hnet.
    assert (Hsend : forall method url params json_body headers,
      fst (Adapter.send str_other json_dumps network self method url params
             json_body headers) = [rq] ->
      snd (Adapter.send str_other json_dumps network self method url params
             json_body headers)
      = if status_code resp =? 204 then inr PNone
        else match json resp with
             | Some body => inr body
             | None =>
                 inl (Adapter.Own
                        (builtin_error ValueError "body is not JSON"))
             end).
    { intros method url params json_body [h|e]; simpl; [|done].
      intros [= <-]. rewrite Hnet, Ha.
      destruct (status_code resp =? 204); [done|]. by destruct (json resp). }
    destruct c;
      unfold adapter_invoke, Adapter.search_agents, Adapter.get_agent,
        Adapter.get_trust, Adapter.list_domains,
        Adapter.create_exchange_request, Adapter.get_exchange_request
        in Hrq |- *;
      by apply Hsend.
Qed.

Lemma success_response_result_witness :
  outcome
    (request no_repr
       (fun _ => Responded
          {| status_code := 204; ok := true; json := None; text := "" |})
       (HTTPClient_new None "https://clawprint.io" (PInt 30))
       "GET" "/v1/domains" None PNone false)
  = Ok (PDict []) /\
  Adapter._handle_response no_repr no_repr
    {| status_code := 204; ok := true; json := None; text := "" |}
  = Ok PNone.
Proof.
  pose proof (success_response_result no_repr no_repr
                (fun _ => Responded
                   {| status_code := 204; ok := true; json := None;
                      text := "" |})
                {| status_code := 204; ok := true; json := None; text := "" |}
                eq_refl ltac:(simpl; lia)) as (_ & Hrequest & Hadapter & _).
  split.
  - exact (Hrequest (HTTPClient_new None "https://clawprint.io" (PInt 30))
             "GET" "/v1/domains" None PNone false eq_refl).
  - exact Hadapter.
Defined.

(** C4. A query parameter whose value is [None] does not leave with the
    request, under no value at all; a parameter that is set leaves with the
    value given. For [search] this holds of each of its eight filters, and
    nothing else is sent. *)
Theorem none_params_are_omitted str_other network self method path params
    json_body authenticated client a :
  NoDup (keys params) ->
  (exists rq,
     issued (request str_other network self method path (Some params)
               json_body authenticated) = [rq] /\
     forall name,
       sent_param rq name
       = match dict_get name params with
         | Some PNone | None => None
         | Some v => Some v
         end) /\
  (exists rq,
     issued (search str_other network client a) = [rq] /\
     sent_param rq "q" = PStr <$> q a /\
     sent_param rq "domain" = PStr <$> domain a /\
     sent_param rq "protocol" = PStr <$> protocol a /\
     sent_param rq "max_cost"
     = (fun me => PFloat (fst me) (snd me)) <$> max_cost a /\
     sent_param rq "min_verification" = PStr <$> min_verification a /\
     sent_param rq "sort" = PStr <$> sort a /\
     sent_param rq "limit" = PInt <$> limit a /\
     sent_param rq "offset" = PInt <$> offset a /\
     forall name, sent_param rq name <> Some PNone).
Proof.
  intros Hnd. split.
  - eexists. split; [apply request_issued|].
    intros name. rewrite request_sent_param by done.
    by destruct (dict_get name params) as [[]|].
  - eexists. split.
    { unfold search, get, bind. rewrite request_eq. simpl.
      destruct (reply_result _ _ _); simpl; reflexivity. }
    assert (Hk : NoDup (keys
      [("q", opt_str (q a)); ("domain", opt_str (domain a));
       ("protocol", opt_str (protocol a));
       ("max_cost", opt_float (max_cost a));
       ("min_verification", opt_str (min_verification a));
       ("sort", opt_str (sort a)); ("limit", opt_int (limit a));
       ("offset", opt_int (offset a))])).
    { apply (bool_decide_unpack _). vm_compute. reflexivity. }
    repeat split.
    1-8: rewrite (request_sent_param _ _ _ _ _ _ _ Hk); simpl.
    + by destruct (q a).
    + by destruct (domain a).
    + by destruct (protocol a).
    + by destruct (max_cost a).
    + by destruct (min_verification a).
    + by destruct (sort a).
    + by destruct (limit a).
    + by destruct (offset a).
    + intros name. rewrite (request_sent_param _ _ _ _ _ _ _ Hk).
      by destruct (dict_get name _) as [[]|].
Qed.

Lemma none_params_are_omitted_witness :
  exists rq,
    issued (request no_repr
              (fun _ => Failed {| is_ConnectionError := true;
                                  is_Timeout := false; exc_text := "" |})
              (HTTPClient_new None "https://clawprint.io" (PInt 30))
              "GET" "/v1/agents/search"
              (Some [("q", PStr "legal"); ("domain", PNone)]) PNone false)
    = [rq] /\
    sent_param rq "q" = Some (PStr "legal") /\
    sent_param rq "domain" = None.
Proof.
  assert (Hnd : NoDup (keys [("q", PStr "legal"); ("domain", PNone)])).
  { apply (bool_decide_unpack _). vm_compute. reflexivity. }
  destruct (proj1 (none_params_are_omitted no_repr
                     (fun _ => Failed {| is_ConnectionError := true;
                                         is_Timeout := false;
                                         exc_text := "" |})
                     (HTTPClient_new None "https://clawprint.io" (PInt 30))
                     "GET" "/v1/agents/search"
                     [("q", PStr "legal"); ("domain", PNone)] PNone false
                     {| api_key := None;
                        _http := HTTPClient_new None "https://clawprint.io"
                                   (PInt 30) |}
                     {| q := None; domain := None; protocol := None;
                        max_cost := None; min_verification := None;
                        sort := None; limit := None; offset := None |}
                     Hnd))
    as (rq & Hrq & Hsent).
  exists rq. split; [exact Hrq|].
  split; [exact (Hsent "q") | exact (Hsent "domain")].
Defined.

(** C10. [HTTPClient.request] called with [authenticated=True] on a
    transport without a key raises no authentication error: the request is
    handed to the session, the call carries no header at all, no
    [Authorization] header leaves, and the call is in every respect the one
    made with [authenticated=False]; when the session answers, the result
    is [_handle_response] of the answer. *)
Theorem transport_sends_without_key str_other network key base_url timeout
    method path params json_body :
  str_truthy key = false ->
  let self := HTTPClient_new key base_url timeout in
  let call := request str_other network self method path params json_body in
  (exists rq,
     issued (call true) = [rq] /\
     rq_headers rq = ∅ /\
     outgoing_headers self rq !! "Authorization" = None /\
     (forall resp,
        network rq = Responded resp ->
        outcome (call true) = _handle_response str_other resp)) /\
  call true = call false /\
  (forall e, outcome (call true) = Raise e -> exc_cls e = ClawPrintError).
Proof.
  intros Hkey self call. subst call.
  assert (Hh : forall b, _headers self b = ∅).
  { intros b. unfold _headers. simpl. rewrite Hkey.
    by rewrite andb_false_r. }
  assert (Hrq : request_of self method path params json_body true
                = request_of self method path params json_body false).
  { unfold request_of. by rewrite !Hh. }
  split; [|split].
  - eexists. split; [apply request_issued|].
    split; [apply Hh|]. split.
    + unfold outgoing_headers. cbn [rq_headers request_of]. rewrite Hh.
      rewrite lookup_union, lookup_empty. simpl.
      rewrite lookup_insert_ne by done. by rewrite lookup_insert_ne.
    + intros resp Hnet. rewrite request_eq. unfold outcome. simpl.
      by rewrite Hnet.
  - by rewrite !request_eq, Hrq.
  - intros e. rewrite request_eq. unfold outcome. simpl.
    destruct (network _) as [resp|exc]; simpl.
    + unfold _handle_response. destruct (ok resp).
      * by destruct (default PNone (json resp)); destruct (json resp) as [[]|].
      * destruct (json resp) as [[| | | | | |[|[k v] o]|]|]; simpl;
          by intros [= <-].
    + by intros [= <-].
Qed.

Lemma transport_sends_without_key_witness :
  request no_repr
    (fun _ => Responded
       {| status_code := 200; ok := true;
          json := Some (PDict [("ok", PBool true)]); text := "" |})
    (HTTPClient_new None "https://clawprint.io" (PInt 30))
    "POST" "/v1/security/scan" None (PDict [("content", PStr "x")]) true
  = request no_repr
      (fun _ => Responded
         {| status_code := 200; ok := true;
            json := Some (PDict [("ok", PBool true)]); text := "" |})
      (HTTPClient_new None "https://clawprint.io" (PInt 30))
      "POST" "/v1/security/scan" None (PDict [("content", PStr "x")]) false.
Proof.
  refine (proj1 (proj2 (transport_sends_without_key no_repr _ None
                          "https://clawprint.io" (PInt 30) "POST"
                          "/v1/security/scan" None
                          (PDict [("content", PStr "x")]) _))).
  reflexivity.
Defined.

(** ** Public client *)

Lemma outcome_bind_Raise {A B} (m : M A) (f : A -> M B) e :
  outcome (bind m f) = Raise e ->
  outcome m = Raise e \/ exists a, outcome m = Ok a /\ outcome (f a) = Raise e.
Proof.
  destruct m as [t [a|e']]; simpl.
  - destruct (f a) as [t' r] eqn:E. simpl. intros ->. right. exists a.
    by rewrite E.
  - intros [= <-]. by left.
Qed.

Lemma issued_bind_Ok {A B} (m : M A) (f : A -> M B) a :
  outcome m = Ok a -> issued (bind m f) = (issued m ++ issued (f a))%list.
Proof.
  destruct m as [t r]; simpl. intros ->. by destruct (f a).
Qed.

Lemma outcome_bind_Ok {A B} (m : M A) (f : A -> M B) a :
  outcome m = Ok a -> outcome (bind m f) = outcome (f a).
Proof.
  destruct m as [t r]; simpl. intros ->. by destruct (f a).
Qed.

Lemma _require_non_empty name v :
  non_empty v <-> _require name (opt_str v) = Ok tt.
Proof.
  destruct v as [s|]; simpl; [|split; [done | discriminate]].
  destruct (String.eqb (strip s) "") eqn:E.
  - apply String.eqb_eq in E. split; [done | discriminate].
  - apply String.eqb_neq in E. by split.
Qed.

Lemma _require_error name v e :
  _require name v = Raise e -> exc_cls e = ValidationError.
Proof.
  destruct v; simpl; try discriminate; try (by intros [= <-]).
  destruct (String.eqb (strip s) ""); [by intros [= <-] | discriminate].
Qed.

Lemma _require_auth_error self name e :
  _require_auth self name = Raise e -> e = AuthenticationError_new name.
Proof.
  unfold _require_auth. destruct (negb _); [by intros [= <-] | discriminate].
Qed.

Lemma _handle_response_error str_other resp e :
  _handle_response str_other resp = Raise e -> exc_cls e = ClawPrintError.
Proof.
  unfold _handle_response. destruct (ok resp).
  - by destruct (json resp) as [[]|].
  - destruct (json resp) as [[| | | | | |[|[k v] o]|]|]; simpl;
      by intros [= <-].
Qed.

Lemma request_error str_other network self method path params json_body
    authenticated e :
  outcome (request str_other network self method path params json_body
             authenticated) = Raise e ->
  exc_cls e = ClawPrintError.
Proof.
  rewrite request_eq. unfold outcome. simpl.
  destruct (network _) as [resp|exc]; simpl.
  - apply _handle_response_error.
  - by intros [= <-].
Qed.

Lemma dict_get_set_if_given_ne k k' v d :
  k <> k' -> dict_get k' (set_if_given k v d) = dict_get k' d.
Proof.
  intros Hne. unfold set_if_given.
  destruct (is_not_None v); [by apply dict_get_set_ne | done].
Qed.

(** C7, as the claim states it: with the environment variable set, the
    constructor argument [""] is not the effective key; the environment's
    value is. *)
Lemma empty_key_falls_back_to_environment :
  ({["CLAWPRINT_API_KEY" := "cp_env_key"]} : gmap string string)
    !! "CLAWPRINT_API_KEY" = Some "cp_env_key" /\
  api_key (ClawPrint_new {["CLAWPRINT_API_KEY" := "cp_env_key"]} (Some "")
             "https://clawprint.io" (PInt 30))
  = Some "cp_env_key" /\
  api_key (ClawPrint_new {["CLAWPRINT_API_KEY" := "cp_env_key"]} (Some "")
             "https://clawprint.io" (PInt 30))
  <> Some "".
Proof.
  assert (H : api_key (ClawPrint_new {["CLAWPRINT_API_KEY" := "cp_env_key"]}
                         (Some "") "https://clawprint.io" (PInt 30))
              = Some "cp_env_key").
  { unfold ClawPrint_new, str_or. simpl. apply lookup_singleton_eq. }
  split; [apply lookup_singleton_eq|]. split; [exact H|].
  rewrite H. discriminate.
Qed.

(** C7, amended. Both constructors, of the SDK's client and of the
    adapter's client, compute [api_key or os.environ.get(...)]. A
    constructor argument [api_key] that is not the empty string is the
    effective key, whatever the environment holds: of the client, of its
    transport, and of the adapter's client. A constructor argument that is
    the empty string counts as not supplied, as [None] does: the effective
    key is then what the environment holds under [CLAWPRINT_API_KEY], and
    no key when it holds nothing. *)
Theorem explicit_key_takes_precedence environ base_url timeout :
  (forall key,
     key <> "" ->
     api_key (ClawPrint_new environ (Some key) base_url timeout) = Some key /\
     http_api_key (_http (ClawPrint_new environ (Some key) base_url timeout))
     = Some key /\
     Adapter.api_key
       (Adapter.ClawPrintClient_new environ (Some key) base_url timeout)
     = Some key) /\
  (forall arg,
     arg = Some "" \/ arg = None ->
     api_key (ClawPrint_new environ arg base_url timeout)
     = environ !! "CLAWPRINT_API_KEY" /\
     http_api_key (_http (ClawPrint_new environ arg base_url timeout))
     = environ !! "CLAWPRINT_API_KEY" /\
     Adapter.api_key
       (Adapter.ClawPrintClient_new environ arg base_url timeout)
     = environ !! "CLAWPRINT_API_KEY").
Proof.
  split.
  - intros key Hkey.
    assert (H : str_or (Some key) (environ !! "CLAWPRINT_API_KEY") = Some key).
    { unfold str_or. simpl. apply String.eqb_neq in Hkey. by rewrite Hkey. }
    unfold ClawPrint_new, Adapter.ClawPrintClient_new. simpl. by rewrite H.
  - by intros arg [-> | ->].
Qed.

Lemma explicit_key_takes_precedence_witness :
  api_key (ClawPrint_new {["CLAWPRINT_API_KEY" := "cp_env_key"]}
             (Some "cp_explicit") "https://clawprint.io" (PInt 30))
  = Some "cp_explicit" /\
  Adapter.api_key
    (Adapter.ClawPrintClient_new {["CLAWPRINT_API_KEY" := "cp_env_key"]}
       (Some "") "https://clawprint.io" (PInt 30))
  = ({["CLAWPRINT_API_KEY" := "cp_env_key"]} : gmap string string)
      !! "CLAWPRINT_API_KEY".
Proof.
  split.
  - refine (proj1 (proj1 (explicit_key_takes_precedence
                            {["CLAWPRINT_API_KEY" := "cp_env_key"]}
                            "https://clawprint.io" (PInt 30))
                     "cp_explicit" _)).
    discriminate.
  - refine (proj2 (proj2 (proj2 (explicit_key_takes_precedence
                                   {["CLAWPRINT_API_KEY" := "cp_env_key"]}
                                   "https://clawprint.io" (PInt 30))
                            (Some "") _))).
    by left.
Defined.

Section client_props.
Variable str_other : pyval -> string.
Variable network : Request -> reply.

(** C1. On a client built without [api_key] in an environment without
    [CLAWPRINT_API_KEY], each of [update], [report] and [scan] raises the
    authentication error naming it, with code [auth_required], whatever
    its arguments, and hands no request to the session. *)
Theorem auth_required_before_any_request environ base_url timeout :
  environ !! "CLAWPRINT_API_KEY" = None ->
  let client := ClawPrint_new environ None base_url timeout in
  (forall handle fields,
     update str_other network client handle fields
     = ([], Raise (AuthenticationError_new "update"))) /\
  (forall a,
     report str_other network client a
     = ([], Raise (AuthenticationError_new "report"))) /\
  (forall content,
     scan str_other network client content
     = ([], Raise (AuthenticationError_new "scan"))) /\
  (forall name,
     exc_cls (AuthenticationError_new name) = AuthenticationError /\
     exc_code (AuthenticationError_new name) = PStr "auth_required" /\
     exc_message (AuthenticationError_new name)
     = "API key required for " +:+ name +:+ "(). "
       +:+ "Pass api_key to ClawPrint() or set the CLAWPRINT_API_KEY env var.").
Proof.
  intros Henv client.
  assert (Hk : api_key client = None).
  { unfold client, ClawPrint_new, str_or. simpl. exact Henv. }
  repeat split; intros; unfold update, report, scan, _require_auth;
    by rewrite Hk.
Qed.
End client_props.

Lemma auth_required_before_any_request_witness :
  scan no_repr
    (fun _ => Responded
       {| status_code := 200; ok := true; json := None; text := "" |})
    (ClawPrint_new ∅ None "https://clawprint.io" (PInt 30))
    (Some "some text")
  = ([], Raise (AuthenticationError_new "scan")).
Proof.
  refine (proj1 (proj2 (proj2
            (auth_required_before_any_request no_repr _ ∅
               "https://clawprint.io" (PInt 30) _))) _).
  apply lookup_empty.
Defined.

Lemma bind_lift_Ok {A B} (a : A) (f : A -> M B) : bind (lift (Ok a)) f = f a.
Proof. unfold bind, lift. by destruct (f a). Qed.

Lemma bind_ret {A B} (a : A) (f : A -> M B) : bind (ret a) f = f a.
Proof. apply bind_lift_Ok. Qed.

Lemma bind_lift_Raise {A B} e (f : A -> M B) :
  bind (lift (Raise e)) f = ([], Raise e).
Proof. reflexivity. Qed.

(** A method that sends one request and wraps the answer. *)
Lemma bind_request_envelope str_other network self method path params
    json_body authenticated cls :
  bind (request str_other network self method path params json_body
          authenticated)
    (fun data => lift (APIObject_new cls data))
  = ([request_of self method path params json_body authenticated],
     rbind (reply_result str_other self
              (network (request_of self method path params json_body
                          authenticated)))
       (APIObject_new cls)).
Proof.
  rewrite request_eq. unfold bind, lift, rbind.
  by destruct (reply_result _ _ _).
Qed.

Section client_flow.
Variable str_other : pyval -> string.
Variable network : Request -> reply.

(** C8. On a client with a key and with the four required fields given,
    a [rating] below 1 or above 5 makes [report] raise the validation
    error and hand no request to the session; a [rating] from 1 to 5
    makes it send one POST whose body carries that rating, and a 2xx
    answer (without a body that parses, or with an object free of
    reserved keys) makes the call return an envelope. *)
Theorem report_rating_is_validated self a r :
  str_truthy (api_key self) = true ->
  non_empty (provider_handle a) ->
  non_empty (requester_handle a) ->
  non_empty (report_protocol a) ->
  non_empty (report_outcome a) ->
  rating a = Some r ->
  (r < 1 \/ 5 < r ->
   report str_other network self a
   = ([], Raise (ValidationError_new "rating must be between 1 and 5."))) /\
  (1 <= r <= 5 ->
   exists rq body,
     issued (report str_other network self a) = [rq] /\
     rq_method rq = "POST" /\
     rq_url rq = base_url (_http self) +:+ "/v1/transactions/report" /\
     rq_json rq = PDict body /\
     dict_get "rating" body = Some (PInt r) /\
     forall resp,
       network rq = Responded resp ->
       from_requests resp ->
       200 <= status_code resp < 300 ->
       (json resp = None \/
        exists o, json resp = Some (PDict o) /\
                  reserved_free (PDict o) = true) ->
       exists env, outcome (report str_other network self a) = Ok env).
Proof.
  intros Hkey H1 H2 H3 H4 Hr.
  apply (_require_non_empty "provider_handle") in H1.
  apply (_require_non_empty "requester_handle") in H2.
  apply (_require_non_empty "protocol") in H3.
  apply (_require_non_empty "outcome") in H4.
  unfold report, _require_auth. rewrite Hkey, H1, H2, H3, H4, Hr. simpl negb.
  rewrite !bind_lift_Ok. split.
  - intros Hout.
    assert (Hb : (1 <=? r) && (r <=? 5) = false).
    { apply andb_false_iff. rewrite Z.leb_gt, Z.leb_gt. lia. }
    by rewrite Hb.
  - intros Hin.
    assert (Hb : (1 <=? r) && (r <=? 5) = true).
    { apply andb_true_iff. rewrite !Z.leb_le. lia. }
    rewrite Hb. simpl negb. cbv iota. rewrite bind_ret.
    cbv zeta. unfold post. rewrite bind_request_envelope.
    eexists. eexists. split; [reflexivity|].
    split; [reflexivity|]. split; [reflexivity|]. split; [reflexivity|].
    split.
    { rewrite !dict_get_set_if_given_ne by done. reflexivity. }
    intros resp Hnet Hreq Hstatus Hbody. unfold outcome. cbn [snd].
    rewrite Hnet. unfold reply_result.
    rewrite (_handle_response_2xx str_other resp Hreq Hstatus).
    destruct Hbody as [-> | (o & -> & Hfree)]; simpl rbind.
    + eexists. reflexivity.
    + destruct (_wrap_total (PDict o) Hfree) as [w Hw]. simpl in Hw.
      unfold init_dict in Hw |- *.
      destruct (init_items _wrap o _); [|done]. eauto.
Qed.

End client_flow.

Lemma report_rating_is_validated_witness :
  report no_repr
    (fun _ => Responded
       {| status_code := 200; ok := true; json := None; text := "" |})
    (ClawPrint_new ∅ (Some "cp_live_key") "https://clawprint.io" (PInt 30))
    {| provider_handle := Some "legal-eagle";
       requester_handle := Some "my-agent";
       report_protocol := Some "acp";
       report_outcome := Some "completed";
       rating := Some 6;
       external_tx_id := None;
       response_time_ms := None;
       cost_actual := None |}
  = ([], Raise (ValidationError_new "rating must be between 1 and 5.")).
Proof.
  refine (proj1 (report_rating_is_validated no_repr _
                   (ClawPrint_new ∅ (Some "cp_live_key")
                      "https://clawprint.io" (PInt 30))
                   {| provider_handle := Some "legal-eagle";
                      requester_handle := Some "my-agent";
                      report_protocol := Some "acp";
                      report_outcome := Some "completed";
                      rating := Some 6;
                      external_tx_id := None;
                      response_time_ms := None;
                      cost_actual := None |} 6 _ _ _ _ _ _) _).
  - reflexivity.
  - simpl. discriminate.
  - simpl. discriminate.
  - simpl. discriminate.
  - simpl. discriminate.
  - reflexivity.
  - right. lia.
Defined.

(** The adapter's error class stands apart: it derives from [Exception],
    not from [ClawPrintError]. *)
Lemma adapter_error_is_separate str_other status detail :
  isinstance (Adapter.ClawPrintAPIError_new str_other status detail)
    ClawPrintError = false /\
  isinstance (Adapter.ClawPrintAPIError_new str_other status detail)
    Exception = true.
Proof. by split. Qed.

(** ** The scenarios of the specification, run *)

Example base_url_is_stripped :
  base_url (HTTPClient_new None "https://custom.api.io/" (PInt 30))
  = "https://custom.api.io".
Proof. reflexivity. Qed.

Example path_segment_is_quoted :
  encode_path_segment "legal eagle/~x" = "legal%20eagle%2F~x".
Proof. reflexivity. Qed.

Example blank_handle_is_rejected :
  trust no_repr
    (fun _ => Responded
       {| status_code := 200; ok := true; json := None; text := "" |})
    (ClawPrint_new ∅ None "https://clawprint.io" (PInt 30)) (Some "   ")
  = ([], Raise (ValidationError_new
                  "'handle' is required and cannot be empty.")).
Proof. reflexivity. Qed.

Example not_found_uses_the_fallback_message :
  _handle_response no_repr
    {| status_code := 404; ok := false;
       json := Some (PDict [("detail", PStr "Not found")]); text := "" |}
  = Raise (ClawPrintError_new "API request failed" (Some 404) PNone
             (PDict [("detail", PStr "Not found")])).
Proof. reflexivity. Qed.

Example error_field_wins_over_message :
  _handle_response no_repr
    {| status_code := 422; ok := false;
       json := Some (PDict [("message", PStr "m"); ("error", PStr "e");
                            ("code", PStr "bad_input")]);
       text := "" |}
  = Raise (ClawPrintError_new "e" (Some 422) (PStr "bad_input")
             (PDict [("message", PStr "m"); ("error", PStr "e");
                     ("code", PStr "bad_input")])).
Proof. reflexivity. Qed.

Example trust_end_to_end :
  exists rq env,
    trust no_repr
      (fun _ => Responded
         {| status_code := 200; ok := true;
            json := Some (PDict [("handle", PStr "legal-eagle");
                                 ("trust_score", PInt 82);
                                 ("grade", PStr "B+");
                                 ("acp_compatible", PBool true)]);
            text := "" |})
      (ClawPrint_new ∅ None "https://clawprint.io" (PInt 30))
      (Some "legal-eagle")
    = ([rq], Ok env) /\
    rq_url rq = "https://clawprint.io/v1/trust/legal-eagle" /\
    rq_headers rq = ∅ /\
    getattr env "trust_score" = Some (PInt 82) /\
    getattr env "grade" = Some (PStr "B+") /\
    getattr env "acp_compatible" = Some (PBool true) /\
    getitem env "handle" = Some (PStr "legal-eagle").
Proof. do 2 eexists. repeat split. Qed.

Example nested_objects_are_wrapped :
  exists env results first,
    APIObject_new SearchResponse
      (PDict [("results",
               PList [PDict [("handle", PStr "a");
                             ("meta", PDict [("tier", PInt 1)])]]);
              ("total", PInt 1)]) = Ok env /\
    getattr env "results" = Some (PList results) /\
    results !! 0%nat = Some first /\
    env_at [Field "results"; Index 0; Field "meta"; Field "tier"] env
    = Some (PInt 1) /\
    forall dict_other,
      to_dict dict_other env
      = Ok (PDict [("results",
                    PList [PDict [("handle", PStr "a");
                                  ("meta", PDict [("tier", PInt 1)])]]);
                   ("total", PInt 1)]).
Proof. do 3 eexists. repeat split. Qed.

Example adapter_204_is_None str_other json_dumps :
  Adapter._handle_response str_other json_dumps
    {| status_code := 204; ok := true; json := None; text := "" |}
  = Ok PNone.
Proof. reflexivity. Qed.

(** * Further properties of the code *)

(** ** Strings: [rstrip], [strip], [quote] *)

Lemma chars_app a b : chars (a +:+ b) = (chars a ++ chars b)%list.
Proof. induction a as [|c a IH]; simpl; [done | by rewrite <- IH]. Qed.

Lemma append_nil_l t : "" +:+ t = t.
Proof. reflexivity. Qed.

Lemma append_cons c a t : String c a +:+ t = String c (a +:+ t).
Proof. reflexivity. Qed.

Lemma append_inj_l a x y : a +:+ x = a +:+ y -> x = y.
Proof. induction a as [|c a IH]; simpl; [done|]. intros [= H]. auto. Qed.

Lemma rstrip_by_split drop s :
  exists t,
    s = rstrip_by drop s +:+ t /\ forallb drop (chars t) = true.
Proof.
  induction s as [|c r [t [Hr Ht]]]; simpl; [by exists ""|].
  destruct (rstrip_by drop r) as [|c' r'] eqn:E.
  - change (r = t) in Hr. subst t. destruct (drop c) eqn:Hc.
    + exists (String c r). split; [done|]. simpl. by rewrite Hc.
    + exists r. by split.
  - exists t. split; [|done]. simpl. by rewrite Hr at 1.
Qed.

Lemma rstrip_by_last drop s : forall p c,
  rstrip_by drop s = p +:+ String c "" -> drop c = false.
Proof.
  induction s as [|x r IH]; simpl; intros p c.
  - by destruct p.
  - destruct (rstrip_by drop r) as [|c' r'] eqn:E.
    + destruct (drop x) eqn:Hx; [by destruct p|].
      destruct p as [|y p]; simpl; [by intros [= <-]|].
      intros [= _ H]. by destruct p.
    + destruct p as [|y p]; simpl; [done|].
      intros [= _ H]. exact (IH _ _ H).
Qed.

Lemma rstrip_by_all drop s :
  forallb drop (chars s) = true -> rstrip_by drop s = "".
Proof.
  induction s as [|c r IH]; simpl; [done|].
  intros H. apply andb_true_iff in H as [Hc Hr]. by rewrite (IH Hr), Hc.
Qed.

Lemma rstrip_by_fixed drop s :
  (forall p c, s = p +:+ String c "" -> drop c = false) ->
  rstrip_by drop s = s.
Proof.
  induction s as [|x r IH]; simpl; [done|]. intros H.
  rewrite IH.
  - destruct r as [|y r]; [|done].
    by rewrite (H "" x eq_refl).
  - intros p c ->. exact (H (String x p) c eq_refl).
Qed.

Lemma lstrip_empty s : lstrip s = "" <-> forallb isspace (chars s) = true.
Proof.
  induction s as [|c r IH]; simpl; [done|].
  destruct (isspace c); simpl; [exact IH | by split].
Qed.

Lemma lstrip_head s c r : lstrip s = String c r -> isspace c = false.
Proof.
  induction s as [|x s IH]; simpl; [done|].
  destruct (isspace x) eqn:E; [exact IH|]. by intros [= <- _].
Qed.

Lemma strip_empty s : strip s = "" <-> forallb isspace (chars s) = true.
Proof.
  unfold strip. split.
  - intros H. apply lstrip_empty.
    destruct (lstrip s) as [|c r] eqn:E; [done|].
    destruct (rstrip_by_split isspace (String c r)) as [t [Ht Hall]].
    rewrite H, append_nil_l in Ht. subst t. simpl in Hall.
    apply andb_true_iff in Hall as [Hc _].
    by rewrite (lstrip_head _ _ _ E) in Hc.
  - intros H. apply lstrip_empty in H. by rewrite H.
Qed.

(** X1. [base_url.rstrip("/")]: the base URL a transport keeps is the given
    one without the slashes at its end, all of them, so it never ends with a
    slash, and a URL without one is kept as it is. The adapter's client
    keeps the same. *)
Theorem base_url_has_no_trailing_slash key url t :
  (exists n, url = base_url (HTTPClient_new key url t) +:+ slashes n) /\
  (forall p, base_url (HTTPClient_new key url t) <> p +:+ "/") /\
  ((forall p, url <> p +:+ "/") ->
   base_url (HTTPClient_new key url t) = url) /\
  forall environ,
    Adapter.base_url (Adapter.ClawPrintClient_new environ key url t)
    = base_url (HTTPClient_new key url t).
Proof.
  simpl. unfold rstrip_slash.
  set (drop := fun c => Ascii.eqb c "/"%char).
  repeat split.
  - destruct (rstrip_by_split drop url) as [t' [Hsplit Hall]].
    assert (Ht : forall t', forallb drop (chars t') = true ->
                            exists n, t' = slashes n).
    { clear. induction t' as [|c r IH]; simpl; [by exists O|].
      intros H. apply andb_true_iff in H as [Hc Hr].
      destruct (IH Hr) as [n ->]. apply Ascii.eqb_eq in Hc. subst c.
      by exists (S n). }
    destruct (Ht t' Hall) as [n ->]. by exists n.
  - intros p H. apply rstrip_by_last in H. discriminate.
  - intros H. apply rstrip_by_fixed. intros p c -> .
    destruct (drop c) eqn:E; [|done].
    apply Ascii.eqb_eq in E. subst c. by destruct (H p).
Qed.

Lemma base_url_has_no_trailing_slash_witness :
  base_url (HTTPClient_new None "https://clawprint.io" (PInt 30))
  = "https://clawprint.io".
Proof.
  refine (proj1 (proj2 (proj2 (base_url_has_no_trailing_slash None
            "https://clawprint.io" (PInt 30)))) _).
  intros p H.
  apply (f_equal chars) in H. rewrite chars_app in H.
  apply (f_equal (@last _)) in H. change (chars "/") with ["/"%char] in H.
  rewrite last_snoc in H. vm_compute in H. discriminate.
Defined.

Lemma _require_blank name v :
  _require name v
  = if blank v then
      Raise (ValidationError_new
               ("'" +:+ name +:+ "' is required and cannot be empty."))
    else Ok tt.
Proof.
  destruct v; try reflexivity. unfold _require, blank.
  destruct (String.eqb (strip s) "") eqn:E.
  - apply String.eqb_eq, strip_empty in E. by rewrite E.
  - destruct (forallb isspace (chars s)) eqn:F; [|done].
    apply strip_empty in F. apply String.eqb_neq in E. done.
Qed.

Lemma encode_path_segment_cons c r :
  encode_path_segment (String c r) = quote_char c +:+ encode_path_segment r.
Proof. reflexivity. Qed.

(** Facts about one character, each by running through the 256
    characters. *)
Ltac each_ascii c := destruct c as [[] [] [] [] [] [] [] []].

Lemma length_append a b :
  String.length (a +:+ b) = (String.length a + String.length b)%nat.
Proof. induction a as [|c a IH]; [done|]. rewrite append_cons. simpl. lia. Qed.

Lemma append_assoc a b c : (a +:+ b) +:+ c = a +:+ (b +:+ c).
Proof.
  induction a as [|x a IH]; [done|]. rewrite !append_cons. by rewrite IH.
Qed.

(** ** A [str] in full: [strip] and [_require] *)

Lemma code_points_cons c r :
  code_points (String c r) = code_point c :: code_points r.
Proof. reflexivity. Qed.

Lemma code_points_length s : length (code_points s) = String.length s.
Proof.
  induction s as [|c r IH]; [done|]. rewrite code_points_cons. simpl.
  by rewrite IH.
Qed.

Lemma lstrip_cp_empty s :
  lstrip_cp s = [] <-> forallb isspace_cp s = true.
Proof.
  induction s as [|c r IH]; simpl; [done|].
  destruct (isspace_cp c); simpl; [exact IH | by split].
Qed.

Lemma lstrip_cp_head s c r : lstrip_cp s = c :: r -> isspace_cp c = false.
Proof.
  induction s as [|x s IH]; simpl; [done|].
  destruct (isspace_cp x) eqn:E; [exact IH|]. by intros [= <- _].
Qed.

Lemma rstrip_cp_empty s :
  rstrip_cp s = [] <-> forallb isspace_cp s = true.
Proof.
  induction s as [|c r IH]; simpl; [done|].
  destruct (rstrip_cp r) as [|x r'] eqn:E.
  - destruct (isspace_cp c); simpl.
    + split; [intros _; by apply IH | done].
    + by split.
  - split; [done|]. intros H. apply andb_true_iff in H as [_ H].
    by apply IH in H.
Qed.

Lemma strip_cp_empty s : strip_cp s = [] <-> forallb isspace_cp s = true.
Proof.
  unfold strip_cp. rewrite rstrip_cp_empty. split.
  - intros H. apply lstrip_cp_empty.
    destruct (lstrip_cp s) as [|c r] eqn:E; [done|].
    simpl in H. by rewrite (lstrip_cp_head _ _ _ E) in H.
  - intros H. apply lstrip_cp_empty in H. by rewrite H.
Qed.

(** The model's [isspace], [strip] and [_require] are those of a [str] in
    full, on the strings the model holds. *)
Lemma isspace_code_point c : isspace c = isspace_cp (code_point c).
Proof. each_ascii c; reflexivity. Qed.

Lemma lstrip_code_points s :
  code_points (lstrip s) = lstrip_cp (code_points s).
Proof.
  induction s as [|c r IH]; [done|].
  rewrite code_points_cons. cbn [lstrip lstrip_cp].
  rewrite <- isspace_code_point. by destruct (isspace c).
Qed.

Lemma rstrip_code_points s :
  code_points (rstrip_by isspace s) = rstrip_cp (code_points s).
Proof.
  induction s as [|c r IH]; [done|].
  rewrite code_points_cons. cbn [rstrip_by rstrip_cp].
  rewrite <- IH, <- isspace_code_point.
  destruct (rstrip_by isspace r) as [|x r']; [by destruct (isspace c) | done].
Qed.

Lemma strip_code_points s : code_points (strip s) = strip_cp (code_points s).
Proof.
  unfold strip, strip_cp. by rewrite rstrip_code_points, lstrip_code_points.
Qed.

Lemma _require_code_points name s :
  _require name (PStr s) = _require_str name (code_points s).
Proof.
  unfold _require, _require_str. rewrite <- strip_code_points.
  by destruct (strip s).
Qed.

Lemma _require_str_blank name value :
  _require_str name value
  = if forallb isspace_cp value then
      Raise (ValidationError_new
               ("'" +:+ name +:+ "' is required and cannot be empty."))
    else Ok tt.
Proof.
  unfold _require_str. destruct (strip_cp value) as [|c r] eqn:E.
  - apply strip_cp_empty in E. by rewrite E.
  - destruct (forallb isspace_cp value) eqn:F; [|done].
    apply strip_cp_empty in F. congruence.
Qed.

(** X2. [_require] turns down [None], and a [str] exactly when all its
    code points are white space (the empty [str] among them), with the
    message naming the parameter; every value that is neither [None] nor a
    [str] passes. The [str] is any [str]: the white space is that of
    [str.isspace], U+3000 and the like included, and a string of the model
    is judged as the [str] it stands for. *)
Theorem require_rejects_exactly_blank name :
  _require name PNone
  = Raise (ValidationError_new
             ("'" +:+ name +:+ "' is required and cannot be empty.")) /\
  (forall value : pystr,
     _require_str name value
     = if forallb isspace_cp value then
         Raise (ValidationError_new
                  ("'" +:+ name +:+ "' is required and cannot be empty."))
       else Ok tt) /\
  (forall s, _require name (PStr s) = _require_str name (code_points s)) /\
  (forall v,
     v <> PNone -> (forall s, v <> PStr s) -> _require name v = Ok tt).
Proof.
  split; [done|]. split; [apply _require_str_blank|].
  split; [apply _require_code_points|].
  intros v Hnone Hstr. destruct v; try done. by destruct (Hstr s).
Qed.

Lemma require_rejects_exactly_blank_witness :
  _require "rating" (PInt 0) = Ok tt.
Proof.
  refine (proj2 (proj2 (proj2 (require_rejects_exactly_blank "rating")))
            (PInt 0) _ _); discriminate.
Defined.

Example ideographic_space_is_blank :
  _require_str "handle" [8195; 12288; 32]
  = Raise (ValidationError_new "'handle' is required and cannot be empty.") /\
  _require_str "handle" [8203] = Ok tt.
Proof. split; reflexivity. Qed.

(** ** A [str] in full: [quote] *)

Lemma byte_of_ascii b :
  is_byte b = true -> code_point (ascii_of_nat (Z.to_nat b)) = b.
Proof.
  unfold is_byte, code_point. intros H.
  rewrite nat_ascii_embedding by lia. lia.
Qed.

Lemma code_point_byte c : is_byte (code_point c) = true.
Proof. each_ascii c; reflexivity. Qed.

Lemma utf8_char_bytes c :
  is_code_point c = true -> forallb is_byte (utf8_char c) = true.
Proof.
  unfold is_code_point, utf8_char, is_byte. intros H.
  destruct (Z.ltb_spec c 128); [|destruct (Z.ltb_spec c 2048);
    [|destruct (Z.ltb_spec c 65536)]];
    cbn [forallb]; Z.to_euclidean_division_equations; lia.
Qed.

Lemma utf8_char_head c x :
  is_code_point c = true -> utf8_head (utf8_char c ++ x)%list = Some (c, x).
Proof.
  unfold is_code_point, utf8_char. intros H.
  destruct (Z.ltb_spec c 128); [|destruct (Z.ltb_spec c 2048);
    [|destruct (Z.ltb_spec c 65536)]];
    cbn [app utf8_head].
  - destruct (Z.ltb_spec c 128); [done | lia].
  - destruct (Z.ltb_spec (192 + c / 64) 128);
      [exfalso; Z.to_euclidean_division_equations; lia|].
    destruct (Z.ltb_spec (192 + c / 64) 224);
      [|exfalso; Z.to_euclidean_division_equations; lia].
    do 2 f_equal. Z.to_euclidean_division_equations. lia.
  - destruct (Z.ltb_spec (224 + c / 4096) 128);
      [exfalso; Z.to_euclidean_division_equations; lia|].
    destruct (Z.ltb_spec (224 + c / 4096) 224);
      [exfalso; Z.to_euclidean_division_equations; lia|].
    destruct (Z.ltb_spec (224 + c / 4096) 240);
      [|exfalso; Z.to_euclidean_division_equations; lia].
    do 2 f_equal. Z.to_euclidean_division_equations. lia.
  - destruct (Z.ltb_spec (240 + c / 262144) 128);
      [exfalso; Z.to_euclidean_division_equations; lia|].
    destruct (Z.ltb_spec (240 + c / 262144) 224);
      [exfalso; Z.to_euclidean_division_equations; lia|].
    destruct (Z.ltb_spec (240 + c / 262144) 240);
      [exfalso; Z.to_euclidean_division_equations; lia|].
    do 2 f_equal. Z.to_euclidean_division_equations. lia.
Qed.

Lemma utf8_bytes s : forall t,
  is_str s = true -> utf8 s = Some t -> forallb is_byte t = true.
Proof.
  induction s as [|c r IH]; simpl; intros t Hs.
  - by intros [= <-].
  - apply andb_true_iff in Hs as [Hc Hr].
    destruct (is_surrogate c); [done|].
    destruct (utf8 r) as [bytes|]; [|done]. intros [= <-].
    rewrite forallb_app, (utf8_char_bytes c Hc). exact (IH _ Hr eq_refl).
Qed.

Lemma utf8_None s : utf8 s = None <-> existsb is_surrogate s = true.
Proof.
  induction s as [|c r IH]; simpl; [done|].
  destruct (is_surrogate c); simpl; [done|].
  destruct (utf8 r); [|by rewrite <- IH].
  split; [done|]. intros H. by apply IH in H.
Qed.

Lemma utf8_inj a : forall b t,
  is_str a = true -> is_str b = true ->
  utf8 a = Some t -> utf8 b = Some t -> a = b.
Proof.
  induction a as [|c r IH]; intros [|d s] t Ha Hb; simpl.
  - done.
  - apply andb_true_iff in Hb as [Hd _]. intros [= <-].
    destruct (is_surrogate d); [done|]. destruct (utf8 s); [|done].
    intros [= H]. apply (f_equal utf8_head) in H.
    by rewrite (utf8_char_head d _ Hd) in H.
  - apply andb_true_iff in Ha as [Hc _].
    destruct (is_surrogate c); [done|]. destruct (utf8 r); [|done].
    intros [= <-] [= H]. apply (f_equal utf8_head) in H.
    by rewrite (utf8_char_head c _ Hc) in H.
  - apply andb_true_iff in Ha as [Hc Hr]. apply andb_true_iff in Hb as [Hd Hs].
    destruct (is_surrogate c); [done|].
    destruct (utf8 r) as [t1|] eqn:E1; [|done].
    destruct (is_surrogate d); [done|].
    destruct (utf8 s) as [t2|] eqn:E2; [|done].
    intros [= <-] [= H]. apply (f_equal utf8_head) in H.
    rewrite (utf8_char_head c _ Hc), (utf8_char_head d _ Hd) in H.
    injection H as -> ->. by rewrite (IH s t1 Hr Hs eq_refl E2).
Qed.

Lemma quote_bytes_app t u :
  quote_bytes (t ++ u) = quote_bytes t +:+ quote_bytes u.
Proof.
  induction t as [|b t IH]; [done|]. simpl. by rewrite IH, append_assoc.
Qed.

(** What [quote] writes for one byte, by running through the 256 bytes. *)
Lemma quote_byte_alphabet c :
  forallb quoted_char (chars (quote_byte (code_point c))) = true.
Proof. each_ascii c; reflexivity. Qed.

Lemma unquote_byte_quote_byte c x :
  unquote_byte (quote_byte (code_point c) +:+ x) = Some (code_point c, x).
Proof. each_ascii c; reflexivity. Qed.

Lemma quote_bytes_alphabet t :
  forallb is_byte t = true ->
  forallb quoted_char (chars (quote_bytes t)) = true.
Proof.
  induction t as [|b t IH]; [done|]. cbn [forallb quote_bytes].
  intros H. apply andb_true_iff in H as [Hb Ht].
  rewrite chars_app, forallb_app, (IH Ht), <- (byte_of_ascii b Hb).
  by rewrite quote_byte_alphabet.
Qed.

Lemma quote_bytes_inj t : forall u,
  forallb is_byte t = true -> forallb is_byte u = true ->
  quote_bytes t = quote_bytes u -> t = u.
Proof.
  induction t as [|b t IH]; intros [|d u]; cbn [forallb quote_bytes];
    intros Ht Hu H.
  - done.
  - apply andb_true_iff in Hu as [Hd _].
    apply (f_equal unquote_byte) in H.
    rewrite <- (byte_of_ascii d Hd) in H.
    by rewrite unquote_byte_quote_byte in H.
  - apply andb_true_iff in Ht as [Hb _].
    apply (f_equal unquote_byte) in H.
    rewrite <- (byte_of_ascii b Hb) in H.
    by rewrite unquote_byte_quote_byte in H.
  - apply andb_true_iff in Ht as [Hb Ht]. apply andb_true_iff in Hu as [Hd Hu].
    apply (f_equal unquote_byte) in H.
    rewrite <- (byte_of_ascii b Hb), <- (byte_of_ascii d Hd) in H.
    rewrite !unquote_byte_quote_byte in H.
    rewrite (byte_of_ascii b Hb), (byte_of_ascii d Hd) in H.
    injection H as -> H. by rewrite (IH u Ht Hu H).
Qed.

Lemma quote_byte_length b :
  (1 <= String.length (quote_byte b))%nat /\
  (is_unreserved b = false -> String.length (quote_byte b) = 3%nat).
Proof.
  unfold quote_byte. destruct (is_unreserved b); simpl; split; try lia; done.
Qed.

Lemma quote_char_length c :
  (1 <= String.length (quote_bytes (utf8_char c)))%nat /\
  (is_unreserved c = false ->
   (2 <= String.length (quote_bytes (utf8_char c)))%nat).
Proof.
  unfold utf8_char.
  destruct (Z.ltb_spec c 128); [|destruct (Z.ltb_spec c 2048);
    [|destruct (Z.ltb_spec c 65536)]];
    cbn [quote_bytes]; rewrite ?length_append.
  - destruct (quote_byte_length c) as [H1 H3]. split; [lia|].
    intros U. rewrite (H3 U). lia.
  - pose proof (proj1 (quote_byte_length (192 + c / 64))).
    pose proof (proj1 (quote_byte_length (128 + c mod 64))).
    split; lia.
  - pose proof (proj1 (quote_byte_length (224 + c / 4096))).
    pose proof (proj1 (quote_byte_length (128 + (c / 64) mod 64))).
    split; lia.
  - pose proof (proj1 (quote_byte_length (240 + c / 262144))).
    pose proof (proj1 (quote_byte_length (128 + (c / 4096) mod 64))).
    split; lia.
Qed.

Lemma quote_length s : forall out,
  quote s = Some out ->
  (length s <= String.length out)%nat /\
  (forallb is_unreserved s = false -> (length s < String.length out)%nat).
Proof.
  unfold quote. induction s as [|c r IH]; simpl; intros out.
  - intros [= <-]. by split.
  - destruct (is_surrogate c); [done|].
    destruct (utf8 r) as [bytes|]; [|done]. simpl. intros [= <-].
    rewrite quote_bytes_app, length_append.
    destruct (IH _ eq_refl) as [IH1 IH2].
    destruct (quote_char_length c) as [H1 H2].
    split; [lia|]. destruct (is_unreserved c); simpl.
    + intros H. specialize (IH2 H). lia.
    + intros _. specialize (H2 eq_refl). lia.
Qed.

Lemma quote_unreserved s :
  forallb is_unreserved s = true ->
  exists out, quote s = Some out /\ code_points out = s.
Proof.
  unfold quote. induction s as [|c r IH]; simpl; [by exists ""|].
  intros H. apply andb_true_iff in H as [Hc Hr].
  destruct (IH Hr) as (out & Hout & Hcp).
  destruct (utf8 r) as [bytes|]; [|done]. injection Hout as <-.
  assert (Hs : is_surrogate c = false) by (unfold is_unreserved, is_surrogate in *; lia).
  assert (Hu : utf8_char c = [c]).
  { unfold utf8_char. destruct (Z.ltb_spec c 128); [done|].
    unfold is_unreserved in Hc. lia. }
  assert (Hb : is_byte c = true) by (unfold is_unreserved, is_byte in *; lia).
  rewrite Hs, Hu. simpl. unfold quote_byte at 1. rewrite Hc.
  eexists. split; [reflexivity|].
  rewrite append_cons, append_nil_l, code_points_cons, Hcp.
  by rewrite (byte_of_ascii c Hb).
Qed.

(** The model's [encode_path_segment] is [quote] on the strings the model
    holds. *)
Lemma quote_char_utf8 c :
  is_surrogate (code_point c) = false /\
  quote_bytes (utf8_char (code_point c)) = quote_char c.
Proof. each_ascii c; split; reflexivity. Qed.

Lemma encode_path_segment_quote s :
  quote (code_points s) = Some (encode_path_segment s).
Proof.
  unfold quote. induction s as [|c r IH]; [done|].
  rewrite code_points_cons, encode_path_segment_cons. cbn [utf8].
  destruct (quote_char_utf8 c) as [-> <-].
  destruct (utf8 (code_points r)) as [bytes|]; [|done].
  injection IH as <-. simpl. by rewrite quote_bytes_app.
Qed.

(** X3. [encode_path_segment] is [quote(segment, safe="")]. It raises
    [UnicodeEncodeError] exactly when the segment holds a surrogate code
    point. What it returns for any other [str] is made of unreserved
    characters and percent escapes only: no slash, question mark, hash,
    ampersand, equals sign or space is left to change the path, the query
    or the fragment of the URL. *)
Theorem quote_alphabet segment :
  is_str segment = true ->
  (quote segment = None <-> existsb is_surrogate segment = true) /\
  forall out,
    quote segment = Some out ->
    forallb quoted_char (chars out) = true /\
    forall c,
      In c (chars out) ->
      c <> "/"%char /\ c <> "?"%char /\ c <> "#"%char /\ c <> " "%char
      /\ c <> "&"%char /\ c <> "="%char.
Proof.
  intros Hs. split.
  - unfold quote. rewrite <- utf8_None. by destruct (utf8 segment).
  - intros out Hq.
    assert (H : forallb quoted_char (chars out) = true).
    { unfold quote in Hq. destruct (utf8 segment) as [bytes|] eqn:E; [|done].
      injection Hq as <-. apply quote_bytes_alphabet.
      exact (utf8_bytes _ _ Hs E). }
    split; [exact H|]. intros c Hc.
    rewrite forallb_forall in H. specialize (H c Hc).
    repeat split; intros ->; discriminate.
Qed.

Lemma quote_alphabet_witness :
  quote [97; 47; 26085] = Some "a%2F%E6%97%A5" /\ "%"%char <> "/"%char.
Proof.
  split; [reflexivity|].
  refine (proj1 (proj2 (proj2 (quote_alphabet [97; 47; 26085] _)
                          "a%2F%E6%97%A5" _) "%"%char _)).
  - reflexivity.
  - reflexivity.
  - vm_compute. tauto.
Defined.

(** X4. [encode_path_segment] never shortens a segment: what it returns
    has at least as many characters as the segment has code points. It
    returns the segment as it is exactly when every code point of it is an
    unreserved character (letters, digits, [_.-~]). *)
Theorem quote_fixed_points segment out :
  quote segment = Some out ->
  (length segment <= String.length out)%nat /\
  (code_points out = segment <-> forallb is_unreserved segment = true).
Proof.
  intros Hq. destruct (quote_length segment out Hq) as [Hle Hlt].
  split; [exact Hle|]. split.
  - intros H. destruct (forallb is_unreserved segment) eqn:E; [done|].
    specialize (Hlt eq_refl).
    rewrite <- H, code_points_length in Hlt. lia.
  - intros H. destruct (quote_unreserved segment H) as (out' & Hq' & Hcp).
    congruence.
Qed.

Lemma quote_fixed_points_witness :
  code_points "legal-eagle_2.0~x"
  = [108; 101; 103; 97; 108; 45; 101; 97; 103; 108; 101; 95; 50; 46; 48;
     126; 120].
Proof.
  refine (proj2 (proj2 (quote_fixed_points
                          [108; 101; 103; 97; 108; 45; 101; 97; 103; 108;
                           101; 95; 50; 46; 48; 126; 120]
                          "legal-eagle_2.0~x" _)) _); reflexivity.
Defined.

(** X5. [encode_path_segment] loses nothing: two segments with the same
    encoding are the same [str], so two handles never share a URL. *)
Theorem quote_injective a b out :
  is_str a = true -> is_str b = true ->
  quote a = Some out -> quote b = Some out -> a = b.
Proof.
  unfold quote. intros Ha Hb Hqa Hqb.
  destruct (utf8 a) as [t|] eqn:Ea; [|done].
  destruct (utf8 b) as [u|] eqn:Eb; [|done].
  injection Hqa as <-. injection Hqb as Hq.
  assert (Htu : t = u).
  { apply quote_bytes_inj; [exact (utf8_bytes _ _ Ha Ea)
                           |exact (utf8_bytes _ _ Hb Eb) | done]. }
  subst u. exact (utf8_inj a b t Ha Hb Ea Eb).
Qed.

Lemma quote_injective_witness :
  [26085; 26412] = [26085; 26412].
Proof.
  exact (quote_injective [26085; 26412] [26085; 26412]
           "%E6%97%A5%E6%9C%AC" eq_refl eq_refl eq_refl eq_refl).
Defined.

Example quote_examples :
  quote [233] = Some "%C3%A9" /\
  quote [128512] = Some "%F0%9F%98%80" /\
  quote [37] = Some "%25" /\
  quote [97; 55296] = None.
Proof. repeat split. Qed.

(** ** Response envelope, further *)

Lemma init_items_inv wrap items : forall self self',
  init_items wrap items self = Ok self' ->
  Forall (fun kv => reserved (fst kv) = false
                    /\ exists w, wrap (snd kv) = Ok w) items.
Proof.
  induction items as [|[key value] rest IH]; simpl; intros self self';
    [constructor|].
  destruct (wrap value) as [w|] eqn:Hw; [|done].
  destruct (object_setattr self key w) as [self1|] eqn:Hset; [|done].
  apply object_setattr_inv in Hset as [Hres _]. intros H.
  constructor; [split; eauto | exact (IH _ _ H)].
Qed.

Lemma init_items_error wrap items : forall self e,
  init_items wrap items self = Raise e ->
  (exists kv, In kv items /\ wrap (snd kv) = Raise e)
  \/ exc_cls e = TypeError \/ exc_cls e = AttributeError.
Proof.
  induction items as [|[key value] rest IH]; simpl; intros self e; [done|].
  destruct (wrap value) as [w|e'] eqn:Hw.
  - destruct (object_setattr self key w) as [self1|e''] eqn:Hset.
    + intros H. destruct (IH _ _ H) as [(kv & Hin & Hkv)|H']; [|by right].
      left. exists kv. split; [by right | done].
    + intros [= <-]. right. unfold object_setattr in Hset.
      destruct (String.eqb key "__class__"); [injection Hset as <-; by left|].
      destruct (String.eqb key "__dict__"); [injection Hset as <-; by left|].
      destruct (String.eqb key "__weakref__"); [|done].
      injection Hset as <-. by right.
  - intros [= <-]. left. exists (key, value). split; [by left | done].
Qed.

Lemma wrap_list_inv wrap l : forall ws,
  wrap_list wrap l = Ok ws ->
  Forall2 (fun v w => wrap v = Ok w) l ws.
Proof.
  induction l as [|x r IH]; simpl; intros ws.
  - intros [= <-]. constructor.
  - destruct (wrap x) as [w|] eqn:Hw; [|done].
    destruct (wrap_list wrap r) as [ws'|] eqn:Hr; [|done].
    intros [= <-]. constructor; [done | by apply IH].
Qed.

Lemma wrap_list_error wrap l : forall e,
  wrap_list wrap l = Raise e -> exists v, In v l /\ wrap v = Raise e.
Proof.
  induction l as [|x r IH]; simpl; intros e; [done|].
  destruct (wrap x) as [w|e'] eqn:Hw.
  - destruct (wrap_list wrap r) as [ws'|e''] eqn:Hr; [done|].
    intros [= <-]. destruct (IH _ eq_refl) as (v & Hin & Hv).
    exists v. split; [by right | done].
  - intros [= <-]. exists x. split; [by left | done].
Qed.

Lemma _wrap_reserved_free v : forall w,
  is_json v = true -> _wrap v = Ok w -> reserved_free v = true.
Proof.
  induction v as [| | | | |l IH|o IH|cls attrs IH] using pyval_nested_ind;
    simpl; intros w Hjson Hw; try done.
  - destruct (wrap_list _wrap l) as [ws|] eqn:Hl; [|done].
    apply wrap_list_inv in Hl. apply forallb_forall. intros v Hv.
    rewrite forallb_forall in Hjson. rewrite Forall_forall in IH.
    pose proof (Hjson v Hv) as Hjv. apply list_elem_of_In in Hv.
    destruct (proj1 (list_elem_of_lookup _ _) Hv) as [i Hi].
    destruct (Forall2_lookup_l _ _ _ _ _ Hl Hi) as (w' & _ & Hw').
    exact (IH v Hv w' Hjv Hw').
  - unfold init_dict in Hw.
    destruct (init_items _wrap o _) as [self|] eqn:Hinit; [|done].
    apply init_items_inv in Hinit. apply forallb_forall. intros kv Hkv.
    rewrite forallb_forall in Hjson. rewrite Forall_forall in IH, Hinit.
    pose proof (Hjson kv Hkv) as Hjv. apply list_elem_of_In in Hkv.
    destruct (Hinit kv Hkv) as [Hres [w' Hw']].
    rewrite Hres. simpl. exact (IH kv Hkv w' Hjv Hw').
Qed.

Lemma _wrap_error v : forall e,
  _wrap v = Raise e -> exc_cls e = TypeError \/ exc_cls e = AttributeError.
Proof.
  induction v as [|b|n|m ex|s|l IH|o IH|cls attrs IH]
    using pyval_nested_ind; simpl; intros e He; try done.
  - destruct (wrap_list _wrap l) as [ws|e'] eqn:Hl; [done|].
    injection He as <-. apply wrap_list_error in Hl as (v & Hin & Hv).
    rewrite Forall_forall in IH.
    exact (IH v (proj2 (list_elem_of_In _ _) Hin) _ Hv).
  - unfold init_dict in He.
    destruct (init_items _wrap o _) as [self|e'] eqn:Hinit; [done|].
    injection He as <-.
    apply init_items_error in Hinit as [(kv & Hin & Hkv)|H]; [|done].
    rewrite Forall_forall in IH.
    exact (IH kv (proj2 (list_elem_of_In _ _) Hin) _ Hkv).
Qed.

Lemma envelope_addressable_witness :
  exists env,
    APIObject_new SearchResponse
      (PDict [("results", PList [PDict [("handle", PStr "a")]])]) = Ok env /\
    exists y,
      env_at [Field "results"; Index 0; Field "handle"] env = Some y /\
      y = PStr "a".
Proof.
  destruct (envelope_addressable SearchResponse
              [("results", PList [PDict [("handle", PStr "a")]])])
    as (env & Henv & Hat).
  - reflexivity.
  - solve_dict_wf.
  - exists env. split; [exact Henv|].
    destruct (Hat (Field "results") [Index 0; Field "handle"] (PStr "a")
                eq_refl) as (y & Hy & _ & Hshape).
    exists y. split; [exact Hy | exact Hshape].
Defined.

Lemma to_dict_roundtrip_witness :
  to_dict (fun v => Ok v)
    (PObj TrustResponse
       [("_data", PDict [("grade", PStr "B+")]); ("grade", PStr "B+")])
  = Ok (PDict [("grade", PStr "B+")]).
Proof.
  refine (to_dict_roundtrip (fun v => Ok v) TrustResponse
            [("grade", PStr "B+")] _ _ _ _); reflexivity.
Defined.

(** X8. Building an envelope from parsed JSON succeeds exactly when the
    data is an object none of whose keys, at any depth, is [__class__],
    [__dict__] or [__weakref__]; when it fails, the exception is a
    [TypeError] or an [AttributeError] of the interpreter, not an error of
    the SDK. *)
Theorem envelope_built_iff cls data :
  is_json data = true ->
  ((exists env, APIObject_new cls data = Ok env)
   <-> (exists o, data = PDict o) /\ reserved_free data = true) /\
  (forall e,
     APIObject_new cls data = Raise e ->
     (exc_cls e = TypeError \/ exc_cls e = AttributeError) /\
     isinstance e ClawPrintError = false).
Proof.
  intros Hjson.
  assert (Hsame : forall o,
    (exists env, init_dict _wrap cls o = Ok env)
    <-> exists w, _wrap (PDict o) = Ok w).
  { intros o. simpl. unfold init_dict.
    destruct (init_items _wrap o _); split; intros [x Hx]; eauto; done. }
  assert (Herr : forall e,
    APIObject_new cls data = Raise e ->
    exc_cls e = TypeError \/ exc_cls e = AttributeError).
  { intros e. destruct data; simpl; try (intros [= <-]; by right).
    intros He. apply (_wrap_error (PDict o)). simpl.
    unfold init_dict in *. by destruct (init_items _wrap o _). }
  split; [split|].
  - intros [env Henv]. destruct data; try done. split; [eauto|].
    destruct (proj1 (Hsame o) (ex_intro _ env Henv)) as [w Hw].
    exact (_wrap_reserved_free _ _ Hjson Hw).
  - intros [[o ->] Hfree]. apply Hsame. by apply _wrap_total.
  - intros e He. split; [by apply Herr|].
    unfold isinstance. by destruct (Herr e He) as [-> | ->].
Qed.

Lemma envelope_built_iff_witness :
  exists env,
    APIObject_new DomainsResponse
      (PDict [("domains", PList [PDict [("name", PStr "legal")]]);
              ("total", PInt 1)]) = Ok env.
Proof.
  refine (proj2 (proj1 (envelope_built_iff DomainsResponse
            (PDict [("domains", PList [PDict [("name", PStr "legal")]]);
                    ("total", PInt 1)]) _)) _).
  - reflexivity.
  - split; [by eexists | reflexivity].
Defined.

(** X9. [_wrap] does nothing to what it has wrapped: wrapping the result
    of [_wrap] again gives the same value. *)
Theorem _wrap_idempotent v : forall w, _wrap v = Ok w -> _wrap w = Ok w.
Proof.
  induction v as [| | | | |l IH|o IH|cls attrs IH] using pyval_nested_ind;
    intros w Hw; try (by injection Hw as <-).
  - simpl in Hw. destruct (wrap_list _wrap l) as [ws|] eqn:Hl; [|done].
    injection Hw as <-. apply wrap_list_inv in Hl. simpl.
    assert (H : wrap_list _wrap ws = Ok ws); [|by rewrite H].
    induction Hl as [|x y r ws Hxy _ IHl]; [done|].
    apply Forall_cons in IH as [IHx IHr]. simpl.
    by rewrite (IHx _ Hxy), (IHl IHr).
  - by destruct (_wrap_shape _ _ Hw) as [attrs ->].
Qed.

Lemma _wrap_idempotent_witness :
  _wrap (PList [PObj _APIObject [("_data", PDict [])]; PInt 1])
  = Ok (PList [PObj _APIObject [("_data", PDict [])]; PInt 1]).
Proof.
  exact (_wrap_idempotent (PList [PDict []; PInt 1]) _ eq_refl).
Defined.

Lemma init_items_member wrap items : forall self self' key,
  init_items wrap items self = Ok self' ->
  is_Some (dict_get key items) ->
  is_Some (dict_get key self').
Proof.
  induction items as [|[k x] rest IH]; simpl; intros self self' key;
    [by intros _ [? ?]|].
  destruct (wrap x) as [w|] eqn:Hw; [|done].
  destruct (object_setattr self k w) as [self1|] eqn:Hset; [|done].
  apply object_setattr_inv in Hset as [_ ->]. intros Hinit.
  destruct (String.eqb key k) eqn:E; [|exact (IH _ _ _ Hinit)].
  apply String.eqb_eq in E. subst k. intros _.
  destruct (dict_get key rest) as [v'|] eqn:Hrest.
  - apply (IH _ _ _ Hinit). by rewrite Hrest.
  - rewrite (init_items_absent _ _ _ _ key Hinit Hrest).
    rewrite dict_get_set_eq. eauto.
Qed.

(** X10. For data without a key [_data], iterating the envelope gives the
    keys of the data in their order, [key in envelope] holds exactly of
    those keys, and each of them is an attribute of the envelope. The
    attribute [_data] itself is there without being a member. *)
Theorem envelope_keys in_other iter_other cls o env :
  APIObject_new cls (PDict o) = Ok env ->
  dict_get "_data" o = None ->
  __iter__ iter_other env = Ok (keys o) /\
  (forall key,
     __contains__ in_other env key = Ok (bool_decide (key ∈ keys o))) /\
  (forall key, key ∈ keys o -> is_Some (getitem env key)) /\
  getitem env "_data" = Some (PDict o) /\
  __contains__ in_other env "_data" = Ok false.
Proof.
  simpl. unfold init_dict.
  destruct (init_items _wrap o _) as [self|] eqn:Hinit; [|done].
  intros [= <-] Hdata.
  assert (Hd : getattr (PObj cls self) "_data" = Some (PDict o)).
  { simpl. by rewrite (init_items_absent _ _ _ _ "_data" Hinit Hdata). }
  assert (Hin : forall key, key ∈ keys o <-> is_Some (dict_get key o)).
  { intros key. rewrite list_elem_of_In.
    destruct (dict_get key o) eqn:E.
    - split; [eauto|]. intros _.
      destruct (decide (key ∈ keys o)) as [Hy|Hn];
        [by apply list_elem_of_In|].
      rewrite list_elem_of_In in Hn.
      apply dict_get_None_keys in Hn. congruence.
    - split; [|by intros [? ?]]. intros H.
      by apply dict_get_None_keys in E. }
  repeat split.
  - unfold __iter__, _data. by rewrite Hd.
  - intros key. unfold __contains__, _data. rewrite Hd. f_equal.
    destruct (dict_get key o) eqn:E.
    + symmetry. apply bool_decide_eq_true. apply Hin. by rewrite E.
    + symmetry. apply bool_decide_eq_false. rewrite Hin, E.
      by intros [? ?].
  - intros key Hkey. apply Hin in Hkey.
    exact (init_items_member _ _ _ _ _ Hinit Hkey).
  - exact Hd.
  - unfold __contains__, _data. rewrite Hd. by rewrite Hdata.
Qed.

Lemma envelope_keys_witness :
  __iter__ (fun _ => Ok [])
    (PObj SearchResponse
       [("_data", PDict [("total", PInt 0)]); ("total", PInt 0)])
  = Ok ["total"].
Proof.
  refine (proj1 (envelope_keys (fun _ _ => Ok false) (fun _ => Ok [])
                   SearchResponse [("total", PInt 0)] _ _ _));
    reflexivity.
Defined.

(** ** HTTP transport, further *)

Lemma failed_response_raises_witness :
  exists e,
    _handle_response no_repr
      {| status_code := 404; ok := false;
         json := Some (PDict [("error", PStr "Agent not found");
                              ("code", PStr "not_found")]);
         text := "" |} = Raise e /\
    exc_status e = Some 404 /\
    exc_message e = "Agent not found" /\
    exc_code e = PStr "not_found".
Proof.
  destruct (failed_response_raises no_repr
              {| status_code := 404; ok := false;
                 json := Some (PDict [("error", PStr "Agent not found");
                                      ("code", PStr "not_found")]);
                 text := "" |})
    as (e & He & _ & Hs & _ & Hc & Hm).
  - reflexivity.
  - simpl. lia.
  - exists e. repeat split; [exact He | exact Hs | exact Hm | exact Hc].
Defined.

(** X12. When the session call fails, [request] has handed over that one
    request and no other (nothing is retried), and raises a
    [ClawPrintError] without status and body whose code is
    [connection_error] for a connection error, also one that is a timeout
    as well, [timeout] for any other timeout, with the configured timeout
    in the message, and [request_error] for the rest. *)
Theorem transport_failure_is_reported str_other network self method path
    params json_body authenticated exc :
  network (request_of self method path params json_body authenticated)
  = Failed exc ->
  exists e,
    request str_other network self method path params json_body authenticated
    = ([request_of self method path params json_body authenticated], Raise e)
    /\ exc_cls e = ClawPrintError
    /\ exc_status e = None
    /\ exc_body e = PNone
    /\ (is_ConnectionError exc = true ->
        exc_code e = PStr "connection_error" /\
        exc_message e = "Connection error: " +:+ exc_text exc)
    /\ (is_ConnectionError exc = false -> is_Timeout exc = true ->
        exc_code e = PStr "timeout" /\
        exc_message e
        = "Request timed out after " +:+ py_str str_other (timeout self)
          +:+ "s")
    /\ (is_ConnectionError exc = false -> is_Timeout exc = false ->
        exc_code e = PStr "request_error" /\
        exc_message e = "Request failed: " +:+ exc_text exc).
Proof.
  intros Hnet. eexists. split.
  { rewrite request_eq, Hnet. reflexivity. }
  simpl. destruct (is_ConnectionError exc), (is_Timeout exc);
    repeat split; try done.
Qed.

Lemma transport_failure_is_reported_witness :
  exists e,
    request no_repr
      (fun _ => Failed {| is_ConnectionError := true; is_Timeout := true;
                          exc_text := "connect timed out" |})
      (HTTPClient_new None "https://clawprint.io" (PInt 30))
      "GET" "/v1/domains" None PNone false
    = ([request_of (HTTPClient_new None "https://clawprint.io" (PInt 30))
          "GET" "/v1/domains" None PNone false], Raise e) /\
    exc_code e = PStr "connection_error".
Proof.
  destruct (transport_failure_is_reported no_repr
              (fun _ => Failed {| is_ConnectionError := true;
                                  is_Timeout := true;
                                  exc_text := "connect timed out" |})
              (HTTPClient_new None "https://clawprint.io" (PInt 30))
              "GET" "/v1/domains" None PNone false _ eq_refl)
    as (e & He & _ & _ & _ & Hc & _).
  exists e. split; [exact He | exact (proj1 (Hc eq_refl))].
Defined.

(** ** Public client, further *)

Section client_shape.
Variable str_other : pyval -> string.
Variable network : Request -> reply.

(** Every public method either stops at a check, with a validation or
    authentication error and no request, or sends one request, with the
    key exactly when it is an authenticated method, and wraps the answer. *)
Lemma invoke_cases self c :
  (exists e,
     invoke str_other network self c = ([], Raise e) /\
     (exc_cls e = ValidationError \/ exc_cls e = AuthenticationError)) \/
  (exists method path params json_body cls,
     invoke str_other network self c
     = ([request_of (_http self) method path params json_body (needs_auth c)],
        rbind (reply_result str_other (_http self)
                 (network (request_of (_http self) method path params
                             json_body (needs_auth c))))
          (APIObject_new cls))).
Proof.
  assert (Hstop : forall e : exn,
    exc_cls e = ValidationError \/ exc_cls e = AuthenticationError ->
    (exists e0 : exn,
       (([], Raise e) : M pyval) = ([], Raise e0) /\
       (exc_cls e0 = ValidationError \/ exc_cls e0 = AuthenticationError))).
  { intros e He. by exists e. }
  destruct c; simpl;
    unfold search, trust, register, update, report, domains, scan, discover,
      get, post, patch;
    repeat match goal with
    | |- context [lift (_require_auth ?s ?n)] =>
        let E := fresh "E" in
        destruct (_require_auth s n) as [[]|?] eqn:E;
        [rewrite bind_lift_Ok
        |left; apply Hstop; right;
         by rewrite (_require_auth_error _ _ _ E)]
    | |- context [lift (_require ?n ?v)] =>
        let E := fresh "E" in
        destruct (_require n v) as [[]|?] eqn:E;
        [rewrite bind_lift_Ok
        |left; apply Hstop; left; exact (_require_error _ _ _ E)]
    end.
  all: try (right; cbv zeta; rewrite bind_request_envelope;
            do 5 eexists; reflexivity).
  - destruct fields as [|kv fields].
    + left. apply Hstop. by left.
    + right. simpl truthy. cbv iota. rewrite bind_ret.
      rewrite bind_request_envelope. do 5 eexists. reflexivity.
  - destruct (rating a) as [r|].
    + destruct (negb ((1 <=? r) && (r <=? 5))).
      * left. apply Hstop. by left.
      * right. rewrite bind_ret. cbv zeta.
        rewrite bind_request_envelope. do 5 eexists. reflexivity.
    + right. rewrite bind_ret. cbv zeta.
      rewrite bind_request_envelope. do 5 eexists. reflexivity.
Qed.

Lemma reply_result_error self r cls e :
  rbind (reply_result str_other self r) (APIObject_new cls) = Raise e ->
  exc_cls e = ClawPrintError \/ exc_cls e = TypeError
  \/ exc_cls e = AttributeError.
Proof.
  destruct (reply_result str_other self r) as [v|e'] eqn:E; simpl.
  - intros He. right. destruct v; simpl in He;
      try (injection He as <-; by right).
    apply (_wrap_error (PDict o)). simpl. unfold init_dict in *.
    by destruct (init_items _wrap o _).
  - intros [= <-]. left. destruct r as [resp|exc]; simpl in E.
    + exact (_handle_response_error _ _ _ E).
    + by injection E as <-.
Qed.

(** X13. A call of a public method hands at most one request to the
    session, and a validation or an authentication error is raised only
    before the session is called: a call that raises one has handed no
    request over. *)
Theorem one_request_at_most self c :
  (length (issued (invoke str_other network self c)) <= 1)%nat /\
  forall e,
    outcome (invoke str_other network self c) = Raise e ->
    exc_cls e = ValidationError \/ exc_cls e = AuthenticationError ->
    issued (invoke str_other network self c) = [].
Proof.
  destruct (invoke_cases self c)
    as [(e & -> & He) | (m & p & ps & b & cls & ->)]; simpl.
  - split; [lia | done].
  - split; [lia|].
    intros e He Hcls. apply reply_result_error in He.
    destruct Hcls as [H|H]; rewrite H in He;
      destruct He as [?|[?|?]]; discriminate.
Qed.
End client_shape.

Lemma dict_update_get extra : forall body k,
  NoDup (keys extra) ->
  dict_get k (dict_update body extra)
  = match dict_get k extra with
    | Some v => Some v
    | None => dict_get k body
    end.
Proof.
  unfold dict_update.
  induction extra as [|[k0 v0] r IH]; simpl; intros body k Hnd; [done|].
  apply NoDup_cons in Hnd as [Hnotin Hnd]. rewrite (IH _ _ Hnd).
  destruct (String.eqb k k0) eqn:E.
  - apply String.eqb_eq in E. subst k0.
    assert (Hr : dict_get k r = None).
    { apply dict_get_None_keys. intros Hin. apply Hnotin.
      by apply list_elem_of_In. }
    by rewrite Hr, dict_get_set_eq.
  - apply String.eqb_neq in E.
    rewrite dict_get_set_ne by congruence. done.
Qed.

Lemma dict_get_set_if_given_eq k v d :
  dict_get k d = None ->
  dict_get k (set_if_given k v d) = if is_not_None v then Some v else None.
Proof.
  intros H. unfold set_if_given.
  destruct (is_not_None v); [apply dict_get_set_eq | done].
Qed.

(** X14. A client with a key sends it, as [Authorization: Bearer <key>],
    with every request of [update], [report] and [scan], and with no request
    of any other method; every request carries the session's [Accept] and
    [User-Agent]. *)
Theorem key_goes_only_to_authenticated_methods str_other network environ
    key base_url t k c rq :
  str_or key (environ !! "CLAWPRINT_API_KEY") = Some k ->
  k <> "" ->
  In rq (issued (invoke str_other network
                   (ClawPrint_new environ key base_url t) c)) ->
  outgoing_headers (_http (ClawPrint_new environ key base_url t)) rq
    !! "Authorization"
  = (if needs_auth c then Some ("Bearer " +:+ k) else None) /\
  outgoing_headers (_http (ClawPrint_new environ key base_url t)) rq
    !! "Accept" = Some "application/json" /\
  outgoing_headers (_http (ClawPrint_new environ key base_url t)) rq
    !! "User-Agent" = Some "clawprint-python/0.1.0".
Proof.
  intros Hkey Hk Hin.
  destruct (invoke_cases str_other network
              (ClawPrint_new environ key base_url t) c)
    as [(e & He & _) | (m & p & ps & b & cls & He)];
    rewrite He in Hin; simpl in Hin; [done|].
  destruct Hin as [<-|[]].
  unfold outgoing_headers, request_of. cbn [rq_headers].
  unfold _headers, ClawPrint_new. cbn [_http http_api_key HTTPClient_new
    session_headers].
  rewrite Hkey. apply String.eqb_neq in Hk.
  cbn [str_truthy default]. rewrite Hk. cbn [negb].
  destruct (needs_auth c); cbn [andb].
  - split; [|split].
    + rewrite lookup_union, lookup_insert_eq. reflexivity.
    + rewrite lookup_union, lookup_insert_ne by done.
      by rewrite lookup_empty, lookup_insert_eq.
    + rewrite lookup_union, lookup_insert_ne by done.
      rewrite lookup_empty, lookup_insert_ne by done.
      by rewrite lookup_insert_eq.
  - split; [|split]; rewrite lookup_union, lookup_empty.
    + rewrite lookup_insert_ne by done. by rewrite lookup_insert_ne.
    + by rewrite lookup_insert_eq.
    + rewrite lookup_insert_ne by done. by rewrite lookup_insert_eq.
Qed.

Lemma key_goes_only_to_authenticated_methods_witness :
  outgoing_headers
    (_http (ClawPrint_new ∅ (Some "cp_live_key") "https://clawprint.io"
              (PInt 30)))
    (request_of
       (_http (ClawPrint_new ∅ (Some "cp_live_key") "https://clawprint.io"
                 (PInt 30)))
       "GET" "/v1/domains" None PNone false)
    !! "Authorization" = None.
Proof.
  refine (proj1 (key_goes_only_to_authenticated_methods no_repr
            (fun _ => Failed {| is_ConnectionError := true;
                                is_Timeout := false; exc_text := "" |})
            ∅ (Some "cp_live_key") "https://clawprint.io" (PInt 30)
            "cp_live_key" Domains _ _ _ _)).
  - reflexivity.
  - discriminate.
  - left. reflexivity.
Defined.

Section client_bodies.
Variable str_other : pyval -> string.
Variable network : Request -> reply.

(** X15. [register] checks [name], [handle] and [description] in this
    order and raises the validation error of the first that is blank,
    without a request. With all three given it sends one POST to
    [/v1/agents], without the key, whose body holds the three as given,
    [services] and [protocols] when they are not [None], and every extra
    field; an extra field wins over a field of the same name. *)
Theorem register_validates_then_posts self name handle description services
    protocols extra :
  (blank (opt_str name) = true ->
   register str_other network self name handle description services
     protocols extra
   = ([], Raise (ValidationError_new
                   "'name' is required and cannot be empty."))) /\
  (blank (opt_str name) = false -> blank (opt_str handle) = true ->
   register str_other network self name handle description services
     protocols extra
   = ([], Raise (ValidationError_new
                   "'handle' is required and cannot be empty."))) /\
  (blank (opt_str name) = false -> blank (opt_str handle) = false ->
   blank (opt_str description) = true ->
   register str_other network self name handle description services
     protocols extra
   = ([], Raise (ValidationError_new
                   "'description' is required and cannot be empty."))) /\
  (blank (opt_str name) = false -> blank (opt_str handle) = false ->
   blank (opt_str description) = false ->
   exists rq body,
     issued (register str_other network self name handle description
               services protocols extra) = [rq] /\
     rq_method rq = "POST" /\
     rq_url rq = base_url (_http self) +:+ "/v1/agents" /\
     rq_params rq = None /\
     rq_headers rq = ∅ /\
     rq_json rq = PDict body /\
     (NoDup (keys extra) ->
      (forall k v, dict_get k extra = Some v -> dict_get k body = Some v) /\
      (dict_get "name" extra = None ->
       dict_get "name" body = Some (opt_str name)) /\
      (dict_get "handle" extra = None ->
       dict_get "handle" body = Some (opt_str handle)) /\
      (dict_get "description" extra = None ->
       dict_get "description" body = Some (opt_str description)) /\
      (dict_get "services" extra = None ->
       dict_get "services" body
       = if is_not_None services then Some services else None) /\
      (dict_get "protocols" extra = None ->
       dict_get "protocols" body
       = if is_not_None protocols then Some protocols else None))).
Proof.
  unfold register. rewrite !_require_blank.
  repeat split.
  - by intros ->.
  - intros -> ->. by rewrite bind_lift_Ok.
  - intros -> -> ->. by rewrite !bind_lift_Ok.
  - intros -> -> ->. rewrite !bind_lift_Ok. cbv zeta. unfold post.
    rewrite bind_request_envelope. do 2 eexists.
    split; [reflexivity|]. split; [reflexivity|]. split; [reflexivity|].
    split; [reflexivity|]. split; [reflexivity|]. split; [reflexivity|].
    intros Hnd. repeat split.
    + intros k v Hk. by rewrite dict_update_get, Hk.
    + intros Hk. rewrite dict_update_get, Hk by done.
      by rewrite !dict_get_set_if_given_ne.
    + intros Hk. rewrite dict_update_get, Hk by done.
      by rewrite !dict_get_set_if_given_ne.
    + intros Hk. rewrite dict_update_get, Hk by done.
      by rewrite !dict_get_set_if_given_ne.
    + intros Hk. rewrite dict_update_get, Hk by done.
      rewrite dict_get_set_if_given_ne by done.
      by rewrite dict_get_set_if_given_eq.
    + intros Hk. rewrite dict_update_get, Hk by done.
      rewrite dict_get_set_if_given_eq; [done|].
      by rewrite dict_get_set_if_given_ne.
Qed.


(** X17. The body that [report] sends holds the four required fields as
    given, [rating] and the three optional fields exactly when they are
    given, each unchanged, and nothing else. *)
Theorem report_body_fields self a :
  str_truthy (api_key self) = true ->
  non_empty (provider_handle a) ->
  non_empty (requester_handle a) ->
  non_empty (report_protocol a) ->
  non_empty (report_outcome a) ->
  (forall r, rating a = Some r -> 1 <= r <= 5) ->
  exists rq body,
    issued (report str_other network self a) = [rq] /\
    rq_json rq = PDict body /\
    dict_get "provider_handle" body = PStr <$> provider_handle a /\
    dict_get "requester_handle" body = PStr <$> requester_handle a /\
    dict_get "protocol" body = PStr <$> report_protocol a /\
    dict_get "outcome" body = PStr <$> report_outcome a /\
    dict_get "rating" body = PInt <$> rating a /\
    dict_get "external_tx_id" body = PStr <$> external_tx_id a /\
    dict_get "response_time_ms" body = PInt <$> response_time_ms a /\
    dict_get "cost_actual" body
    = (fun me => PFloat (fst me) (snd me)) <$> cost_actual a /\
    forall k,
      ~ In k ["provider_handle"; "requester_handle"; "protocol"; "outcome";
              "rating"; "external_tx_id"; "response_time_ms"; "cost_actual"] ->
      dict_get k body = None.
Proof.
  intros Hkey H1 H2 H3 H4 Hr.
  pose proof H1 as H1'. pose proof H2 as H2'.
  pose proof H3 as H3'. pose proof H4 as H4'.
  apply (_require_non_empty "provider_handle") in H1.
  apply (_require_non_empty "requester_handle") in H2.
  apply (_require_non_empty "protocol") in H3.
  apply (_require_non_empty "outcome") in H4.
  unfold report, _require_auth. rewrite Hkey, H1, H2, H3, H4. simpl negb.
  rewrite !bind_lift_Ok.
  destruct (provider_handle a) as [ph|]; [|done].
  destruct (requester_handle a) as [rh|]; [|done].
  destruct (report_protocol a) as [pr|]; [|done].
  destruct (report_outcome a) as [oc|]; [|done].
  assert (Hother : forall k (body : pydict),
    ~ In k ["provider_handle"; "requester_handle"; "protocol"; "outcome";
            "rating"; "external_tx_id"; "response_time_ms"; "cost_actual"] ->
    forall k', In k' ["provider_handle"; "requester_handle"; "protocol";
                      "outcome"; "rating"; "external_tx_id";
                      "response_time_ms"; "cost_actual"] -> k' <> k).
  { intros k _ Hk k' Hk' ->. done. }
  destruct (rating a) as [r|].
  - specialize (Hr r eq_refl).
    assert (Hb : (1 <=? r) && (r <=? 5) = true).
    { apply andb_true_iff. rewrite !Z.leb_le. lia. }
    rewrite Hb. simpl negb. cbv iota. rewrite bind_ret. cbv zeta.
    unfold post. rewrite bind_request_envelope.
    do 2 eexists. split; [reflexivity|]. split; [reflexivity|].
    repeat split;
      try (rewrite !dict_get_set_if_given_ne by done; reflexivity).
    + rewrite !dict_get_set_if_given_ne by done.
      rewrite dict_get_set_if_given_eq by reflexivity.
      by destruct (external_tx_id a).
    + rewrite !dict_get_set_if_given_ne by done.
      rewrite dict_get_set_if_given_eq.
      * by destruct (response_time_ms a).
      * rewrite dict_get_set_if_given_ne by done. reflexivity.
    + rewrite dict_get_set_if_given_eq.
      * by destruct (cost_actual a).
      * rewrite !dict_get_set_if_given_ne by done. reflexivity.
    + intros k Hk.
      rewrite !dict_get_set_if_given_ne
        by (apply (Hother k [] Hk); simpl; tauto).
      simpl.
      repeat match goal with
      | |- context [String.eqb k ?x] =>
          let E := fresh "E" in
          destruct (String.eqb k x) eqn:E;
          [apply String.eqb_eq in E; subst k; exfalso; apply Hk; simpl; tauto|]
      end.
      reflexivity.
  - rewrite bind_ret. cbv zeta. unfold post. rewrite bind_request_envelope.
    do 2 eexists. split; [reflexivity|]. split; [reflexivity|].
    repeat split;
      try (rewrite !dict_get_set_if_given_ne by done; reflexivity).
    + rewrite !dict_get_set_if_given_ne by done.
      rewrite dict_get_set_if_given_eq by reflexivity.
      by destruct (external_tx_id a).
    + rewrite !dict_get_set_if_given_ne by done.
      rewrite dict_get_set_if_given_eq.
      * by destruct (response_time_ms a).
      * rewrite dict_get_set_if_given_ne by done. reflexivity.
    + rewrite dict_get_set_if_given_eq.
      * by destruct (cost_actual a).
      * rewrite !dict_get_set_if_given_ne by done. reflexivity.
    + intros k Hk.
      rewrite !dict_get_set_if_given_ne
        by (apply (Hother k [] Hk); simpl; tauto).
      simpl.
      repeat match goal with
      | |- context [String.eqb k ?x] =>
          let E := fresh "E" in
          destruct (String.eqb k x) eqn:E;
          [apply String.eqb_eq in E; subst k; exfalso; apply Hk; simpl; tauto|]
      end.
      reflexivity.
Qed.
End client_bodies.

Lemma register_validates_then_posts_witness :
  register no_repr
    (fun _ => Responded
       {| status_code := 200; ok := true; json := None; text := "" |})
    (ClawPrint_new ∅ None "https://clawprint.io" (PInt 30))
    (Some "Legal Eagle") (Some "  ") (Some "Reads contracts") PNone PNone []
  = ([], Raise (ValidationError_new
                  "'handle' is required and cannot be empty.")).
Proof.
  refine (proj1 (proj2 (register_validates_then_posts no_repr _ _
            (Some "Legal Eagle") (Some "  ") (Some "Reads contracts")
            PNone PNone [])) _ _); reflexivity.
Defined.


Lemma report_body_fields_witness :
  exists rq body,
    issued (report no_repr
              (fun _ => Responded
                 {| status_code := 200; ok := true; json := None;
                    text := "" |})
              (ClawPrint_new ∅ (Some "cp_live_key") "https://clawprint.io"
                 (PInt 30))
              {| provider_handle := Some "legal-eagle";
                 requester_handle := Some "my-agent";
                 report_protocol := Some "acp";
                 report_outcome := Some "completed";
                 rating := Some 5;
                 external_tx_id := None;
                 response_time_ms := Some 120;
                 cost_actual := None |}) = [rq] /\
    rq_json rq = PDict body /\
    dict_get "response_time_ms" body = Some (PInt 120) /\
    dict_get "external_tx_id" body = None.
Proof.
  destruct (report_body_fields no_repr
              (fun _ => Responded
                 {| status_code := 200; ok := true; json := None;
                    text := "" |})
              (ClawPrint_new ∅ (Some "cp_live_key") "https://clawprint.io"
                 (PInt 30))
              {| provider_handle := Some "legal-eagle";
                 requester_handle := Some "my-agent";
                 report_protocol := Some "acp";
                 report_outcome := Some "completed";
                 rating := Some 5;
                 external_tx_id := None;
                 response_time_ms := Some 120;
                 cost_actual := None |})
    as (rq & body & Hrq & Hjson & _ & _ & _ & _ & _ & Hext & Hms & _).
  - reflexivity.
  - simpl. discriminate.
  - simpl. discriminate.
  - simpl. discriminate.
  - simpl. discriminate.
  - simpl. intros r [= <-]. lia.
  - exists rq, body. repeat split; [exact Hrq | exact Hjson | exact Hms
                                    | exact Hext].
Defined.

(** ** The adapter's client *)

Section adapter_props.
Variable str_other : pyval -> string.
Variable json_dumps : pyval -> string.
Variable network : Request -> reply.

(** Every method is one [send], with the key asked for by the two exchange
    methods only. *)
Lemma adapter_invoke_send self c :
  exists method url params json_body,
    adapter_invoke str_other json_dumps network self c
    = Adapter.send str_other json_dumps network self method url params
        json_body
        (Adapter._headers str_other self (adapter_needs_auth c)).
Proof. destruct c; simpl; do 4 eexists; reflexivity. Qed.

(** X19. On an adapter client without a key, [create_exchange_request]
    and [get_exchange_request] raise [ClawPrintAPIError] with status 401
    before the session is called; the four other methods send their
    request, without any header of their own. With a key, the two exchange
    methods send it as a bearer token. *)
Theorem adapter_key_is_checked_before_sending self c :
  (str_truthy (Adapter.api_key self) = false ->
   adapter_needs_auth c = true ->
   adapter_invoke str_other json_dumps network self c
   = ([], inl (Adapter.Own
                 (Adapter.ClawPrintAPIError_new str_other 401
                    (PStr ("This endpoint requires an API key. "
                           +:+ "Pass api_key= or set CLAWPRINT_API_KEY.")))))) /\
  (adapter_needs_auth c = false ->
   exists rq,
     fst (adapter_invoke str_other json_dumps network self c) = [rq] /\
     rq_headers rq = ∅) /\
  (forall key,
     Adapter.api_key self = Some key -> key <> "" ->
     adapter_needs_auth c = true ->
     exists rq,
       fst (adapter_invoke str_other json_dumps network self c) = [rq] /\
       rq_headers rq = {["Authorization" := "Bearer " +:+ key]}).
Proof.
  destruct (adapter_invoke_send self c) as (m & u & ps & b & ->).
  unfold Adapter.send, Adapter._headers. split; [|split].
  - by intros -> ->.
  - intros ->. eexists. by split.
  - intros key -> Hkey ->. apply String.eqb_neq in Hkey.
    simpl. rewrite Hkey. simpl. eexists. split; [reflexivity|].
    simpl. by rewrite insert_empty.
Qed.

(** X21. A method of the adapter's client hands at most one request to
    the session. When the session call fails, the exception of [requests]
    comes out as it is, unwrapped. A response that is not [ok] gives a
    [ClawPrintAPIError] with the response's status, which is no
    [ClawPrintError]. An [ok] response gives [None] for status 204, else
    the parsed body, and the [ValueError] of the parser when the body does
    not parse. *)
Theorem adapter_results self c :
  (length (fst (adapter_invoke str_other json_dumps network self c)) <= 1)%nat
  /\
  forall rq,
    fst (adapter_invoke str_other json_dumps network self c) = [rq] ->
    (forall exc,
       network rq = Failed exc ->
       snd (adapter_invoke str_other json_dumps network self c)
       = inl (Adapter.Propagated exc)) /\
    (forall resp,
       network rq = Responded resp -> ok resp = false ->
       exists e,
         snd (adapter_invoke str_other json_dumps network self c)
         = inl (Adapter.Own e) /\
         exc_cls e = ClawPrintAPIError /\
         exc_status e = Some (status_code resp) /\
         isinstance e ClawPrintError = false) /\
    (forall resp,
       network rq = Responded resp -> ok resp = true ->
       snd (adapter_invoke str_other json_dumps network self c)
       = if status_code resp =? 204 then inr PNone
         else match json resp with
              | Some v => inr v
              | None =>
                  inl (Adapter.Own
                         (builtin_error ValueError "body is not JSON"))
              end).
Proof.
  destruct (adapter_invoke_send self c) as (m & u & ps & b & ->).
  unfold Adapter.send.
  destruct (Adapter._headers str_other self (adapter_needs_auth c))
    as [h|e]; simpl; [|split; [lia | done]].
  split; [lia|]. intros rq [= <-]. split; [|split].
  - by intros exc ->.
  - intros resp -> Hok. unfold Adapter._handle_response. rewrite Hok.
    eexists. split; [reflexivity|]. by repeat split.
  - intros resp -> Hok. unfold Adapter._handle_response. rewrite Hok.
    destruct (status_code resp =? 204); [done|].
    by destruct (json resp).
Qed.
End adapter_props.

Lemma adapter_key_is_checked_before_sending_witness :
  adapter_invoke no_repr no_repr
    (fun _ => Responded
       {| status_code := 200; ok := true; json := None; text := "" |})
    (Adapter.ClawPrintClient_new ∅ None "https://clawprint.io" (PInt 30))
    (GetExchangeRequest "req_abc123")
  = ([], inl (Adapter.Own
                (Adapter.ClawPrintAPIError_new no_repr 401
                   (PStr ("This endpoint requires an API key. "
                          +:+ "Pass api_key= or set CLAWPRINT_API_KEY."))))).
Proof.
  refine (proj1 (adapter_key_is_checked_before_sending no_repr no_repr _
            (Adapter.ClawPrintClient_new ∅ None "https://clawprint.io"
               (PInt 30))
            (GetExchangeRequest "req_abc123")) _ _); reflexivity.
Defined.

Lemma adapter_results_witness :
  snd (adapter_invoke no_repr no_repr
         (fun _ => Failed {| is_ConnectionError := false; is_Timeout := true;
                             exc_text := "read timed out" |})
         (Adapter.ClawPrintClient_new ∅ None "https://clawprint.io" (PInt 30))
         ListDomains)
  = inl (Adapter.Propagated
           {| is_ConnectionError := false; is_Timeout := true;
              exc_text := "read timed out" |}).
Proof.
  refine (proj1 (proj2 (adapter_results no_repr no_repr
            (fun _ => Failed {| is_ConnectionError := false;
                                is_Timeout := true;
                                exc_text := "read timed out" |})
            (Adapter.ClawPrintClient_new ∅ None "https://clawprint.io"
               (PInt 30))
            ListDomains) _ eq_refl) _ eq_refl).
Defined.

(** C9, as the claim states it. The adapter is part of the bindings, and
    the errors it raises are not variants of [ClawPrintError]: for a 404
    answer a method of the adapter's client raises [ClawPrintAPIError],
    and so it does, with status 401, when a method that needs the key is
    called without one; [ClawPrintAPIError] derives from [Exception], so
    [except ClawPrintError] does not catch it. *)
Lemma adapter_error_is_outside_the_family :
  from_requests
    {| status_code := 404; ok := false;
       json := Some (PDict [("detail", PStr "Agent not found")]);
       text := "" |} /\
  snd (adapter_invoke no_repr no_repr
         (fun _ => Responded
            {| status_code := 404; ok := false;
               json := Some (PDict [("detail", PStr "Agent not found")]);
               text := "" |})
         (Adapter.ClawPrintClient_new ∅ None "https://clawprint.io" (PInt 30))
         (GetAgent "nobody"))
  = inl (Adapter.Own
           (Adapter.ClawPrintAPIError_new no_repr 404
              (PStr "Agent not found"))) /\
  exc_cls (Adapter.ClawPrintAPIError_new no_repr 404 (PStr "Agent not found"))
  = ClawPrintAPIError /\
  isinstance
    (Adapter.ClawPrintAPIError_new no_repr 404 (PStr "Agent not found"))
    ClawPrintError = false /\
  snd (adapter_invoke no_repr no_repr
         (fun _ => Responded
            {| status_code := 200; ok := true; json := None; text := "" |})
         (Adapter.ClawPrintClient_new ∅ None "https://clawprint.io" (PInt 30))
         (GetExchangeRequest "req_abc123"))
  = inl (Adapter.Own
           (Adapter.ClawPrintAPIError_new no_repr 401
              (PStr ("This endpoint requires an API key. "
                     +:+ "Pass api_key= or set CLAWPRINT_API_KEY.")))) /\
  isinstance
    (Adapter.ClawPrintAPIError_new no_repr 401
       (PStr ("This endpoint requires an API key. "
              +:+ "Pass api_key= or set CLAWPRINT_API_KEY.")))
    ClawPrintError = false.
Proof. repeat split. Qed.

(** C9, amended. In the SDK each of the four kinds of error is a variant
    of [ClawPrintError]. The validation error and the
    authentication-required error are subclasses of it: each is an
    instance of its own class and of the base, and not of the other class,
    whatever its text; [_require] raises nothing but the first,
    [_require_auth] nothing but the second, and the checks of [update] and
    [report] raise the first. The transport error, which
    [HTTPClient.request] raises when the session call raises an exception
    of [requests], and the general API error, which it raises for a
    response that is not [ok], are direct instances of [ClawPrintError],
    and of neither subclass.

    The adapter's client raises another type, [ClawPrintAPIError], which
    derives from [Exception] and is no [ClawPrintError]: a method raises
    it with status 401 when it needs the key and has none, before the
    session is called, and with the response's status for a response that
    is not [ok]; an exception of [requests] that the session call raises
    comes out of the method as it is, unwrapped. *)
Theorem errors_are_one_family str_other json_dumps network :
  (forall message,
     isinstance (ValidationError_new message) ClawPrintError = true /\
     isinstance (ValidationError_new message) ValidationError = true /\
     isinstance (ValidationError_new message) AuthenticationError = false) /\
  (forall method,
     isinstance (AuthenticationError_new method) ClawPrintError = true /\
     isinstance (AuthenticationError_new method) AuthenticationError = true /\
     isinstance (AuthenticationError_new method) ValidationError = false) /\
  (forall name v e,
     _require name v = Raise e ->
     exc_cls e = ValidationError /\ isinstance e ClawPrintError = true) /\
  (forall self name e,
     _require_auth self name = Raise e ->
     exc_cls e = AuthenticationError /\ isinstance e ClawPrintError = true) /\
  (forall self handle,
     str_truthy (api_key self) = true ->
     non_empty handle ->
     update str_other network self handle []
     = ([], Raise (ValidationError_new
                     "At least one field is required for update."))) /\
  (forall self a r,
     str_truthy (api_key self) = true ->
     non_empty (provider_handle a) ->
     non_empty (requester_handle a) ->
     non_empty (report_protocol a) ->
     non_empty (report_outcome a) ->
     rating a = Some r ->
     r < 1 \/ 5 < r ->
     report str_other network self a
     = ([], Raise (ValidationError_new "rating must be between 1 and 5."))) /\
  (forall self method path params json_body authenticated exc,
     network (request_of self method path params json_body authenticated)
     = Failed exc ->
     exists e,
       outcome (request str_other network self method path params json_body
                  authenticated) = Raise e /\
       exc_cls e = ClawPrintError /\
       isinstance e ClawPrintError = true /\
       isinstance e ValidationError = false /\
       isinstance e AuthenticationError = false) /\
  (forall self method path params json_body authenticated resp,
     network (request_of self method path params json_body authenticated)
     = Responded resp ->
     ok resp = false ->
     exists e,
       outcome (request str_other network self method path params json_body
                  authenticated) = Raise e /\
       exc_cls e = ClawPrintError /\
       exc_status e = Some (status_code resp) /\
       isinstance e ClawPrintError = true /\
       isinstance e ValidationError = false /\
       isinstance e AuthenticationError = false) /\
  (forall self c,
     str_truthy (Adapter.api_key self) = false ->
     adapter_needs_auth c = true ->
     exists e,
       adapter_invoke str_other json_dumps network self c
       = ([], inl (Adapter.Own e)) /\
       exc_cls e = ClawPrintAPIError /\
       exc_status e = Some 401 /\
       isinstance e ClawPrintError = false /\
       isinstance e Exception = true) /\
  (forall self c rq resp,
     fst (adapter_invoke str_other json_dumps network self c) = [rq] ->
     network rq = Responded resp ->
     ok resp = false ->
     exists e,
       snd (adapter_invoke str_other json_dumps network self c)
       = inl (Adapter.Own e) /\
       exc_cls e = ClawPrintAPIError /\
       exc_status e = Some (status_code resp) /\
       isinstance e ClawPrintError = false /\
       isinstance e Exception = true) /\
  (forall self c rq exc,
     fst (adapter_invoke str_other json_dumps network self c) = [rq] ->
     network rq = Failed exc ->
     snd (adapter_invoke str_other json_dumps network self c)
     = inl (Adapter.Propagated exc)).
Proof.
  split; [by intros|]. split; [by intros|].
  split; [|split; [|split; [|split; [|split; [|split; [|split; [|split]]]]]]].
  - intros name v e H. apply _require_error in H.
    unfold isinstance. by rewrite H.
  - intros self name e H. by apply _require_auth_error in H as ->.
  - intros self handle Hkey Hh.
    apply (_require_non_empty "handle") in Hh.
    unfold update, _require_auth. by rewrite Hkey, Hh.
  - intros self a r Hkey H1 H2 H3 H4 Hr Hout.
    apply (_require_non_empty "provider_handle") in H1.
    apply (_require_non_empty "requester_handle") in H2.
    apply (_require_non_empty "protocol") in H3.
    apply (_require_non_empty "outcome") in H4.
    unfold report, _require_auth. rewrite Hkey, H1, H2, H3, H4, Hr.
    simpl negb. rewrite !bind_lift_Ok.
    assert (Hb : (1 <=? r) && (r <=? 5) = false) by lia.
    by rewrite Hb.
  - intros self method path params json_body authenticated exc Hnet.
    rewrite request_eq. unfold outcome. cbn [snd]. rewrite Hnet.
    eexists. split; [reflexivity|]. by repeat split.
  - intros self method path params json_body authenticated resp Hnet Hok.
    rewrite request_eq. unfold outcome. cbn [snd]. rewrite Hnet.
    unfold reply_result. rewrite (error_response_shape str_other resp Hok).
    eexists. split; [reflexivity|]. by repeat split.
  - intros self c Hkey Hauth.
    destruct (adapter_invoke_send str_other json_dumps network self c)
      as (m & u & ps & b & ->).
    unfold Adapter.send, Adapter._headers. rewrite Hauth, Hkey. simpl.
    eexists. split; [reflexivity|]. by repeat split.
  - intros self c rq resp.
    destruct (adapter_invoke_send str_other json_dumps network self c)
      as (m & u & ps & b & ->).
    unfold Adapter.send.
    destruct (Adapter._headers str_other self (adapter_needs_auth c))
      as [h|e]; simpl; [|done].
    intros [= <-] -> Hok. unfold Adapter._handle_response. rewrite Hok.
    eexists. split; [reflexivity|]. by repeat split.
  - intros self c rq exc.
    destruct (adapter_invoke_send str_other json_dumps network self c)
      as (m & u & ps & b & ->).
    unfold Adapter.send.
    destruct (Adapter._headers str_other self (adapter_needs_auth c))
      as [h|e]; simpl; [|done].
    by intros [= <-] ->.
Qed.

Lemma errors_are_one_family_witness :
  exists e,
    outcome (request no_repr
               (fun _ => Failed {| is_ConnectionError := true;
                                   is_Timeout := false;
                                   exc_text := "refused" |})
               (HTTPClient_new None "https://clawprint.io" (PInt 30))
               "GET" "/v1/domains" None PNone false) = Raise e /\
    exc_cls e = ClawPrintError /\
    isinstance e ClawPrintError = true.
Proof.
  destruct (proj1 (proj2 (proj2 (proj2 (proj2 (proj2 (proj2
              (errors_are_one_family no_repr no_repr
                 (fun _ => Failed {| is_ConnectionError := true;
                                     is_Timeout := false;
                                     exc_text := "refused" |}))))))))
              (HTTPClient_new None "https://clawprint.io" (PInt 30))
              "GET" "/v1/domains" None PNone false
              {| is_ConnectionError := true; is_Timeout := false;
                 exc_text := "refused" |} eq_refl)
    as (e & He & Hcls & Hbase & _).
  exists e. split; [exact He|]. split; [exact Hcls | exact Hbase].
Defined.

(** X20. [search_agents] sends one GET to [/v1/agents/search] without a
    header of its own. It always sends [q], an empty query too; it sends
    [domain] only when it is a non-empty string, [min_score] whenever it is
    not [None], and no other parameter. *)
Theorem adapter_search_params str_other json_dumps network self query domain
    min_score :
  exists rq,
    fst (Adapter.search_agents str_other json_dumps network self query
           domain min_score) = [rq] /\
    rq_method rq = "GET" /\
    rq_url rq = Adapter.base_url self +:+ "/v1/agents/search" /\
    rq_json rq = PNone /\
    rq_headers rq = ∅ /\
    sent_param rq "q" = Some (PStr query) /\
    sent_param rq "domain"
    = (if str_truthy domain then PStr <$> domain else None) /\
    sent_param rq "min_score"
    = (fun me => PFloat (fst me) (snd me)) <$> min_score /\
    forall name,
      name <> "q" -> name <> "domain" -> name <> "min_score" ->
      sent_param rq name = None.
Proof.
  unfold Adapter.search_agents, Adapter.send, Adapter._headers.
  eexists. split; [reflexivity|]. unfold sent_param. cbn [rq_params].
  split; [reflexivity|]. split; [reflexivity|]. split; [reflexivity|].
  split; [reflexivity|].
  split; [|split; [|split]].
  - rewrite dict_get_set_if_given_ne by done.
    destruct (str_truthy domain); [|done].
    by rewrite dict_get_set_ne.
  - rewrite dict_get_set_if_given_ne by done.
    destruct (str_truthy domain) eqn:T; [|done].
    rewrite dict_get_set_eq. by destruct domain.
  - rewrite dict_get_set_if_given_eq.
    + by destruct min_score.
    + destruct (str_truthy domain); [|done].
      by rewrite dict_get_set_ne.
  - intros name Hq Hd Hm.
    rewrite dict_get_set_if_given_ne by done.
    destruct (str_truthy domain).
    + rewrite dict_get_set_ne by done. simpl.
      apply String.eqb_neq in Hq. by rewrite Hq.
    + simpl. apply String.eqb_neq in Hq. by rewrite Hq.
Qed.

(** ** From the request to the envelope *)

(** X22. When a public method has sent its request and the answer is a
    2xx response whose body is a JSON object without reserved keys, the
    method returns an envelope of that body: every value of the body, at
    any depth, is found in it under the same names and indices, wrapped,
    and, unless the body has a key [_data] or [to_dict], [to_dict] gives
    the body back. *)
Theorem successful_call_wraps_the_body str_other network self c rq resp o :
  issued (invoke str_other network self c) = [rq] ->
  network rq = Responded resp ->
  from_requests resp ->
  200 <= status_code resp < 300 ->
  json resp = Some (PDict o) ->
  reserved_free (PDict o) = true ->
  dict_wf (PDict o) ->
  exists env,
    outcome (invoke str_other network self c) = Ok env /\
    (forall s p x,
       json_at (s :: p) (PDict o) = Some x ->
       exists y, env_at (s :: p) env = Some y /\ _wrap x = Ok y) /\
    (dict_get "_data" o = None -> dict_get "to_dict" o = None ->
     forall dict_other, to_dict dict_other env = Ok (PDict o)).
Proof.
  intros Hrq Hnet Hreq Hstatus Hjson Hfree Hwf.
  destruct (invoke_cases str_other network self c)
    as [(e & He & _) | (m & p & ps & b & cls & He)];
    rewrite He in Hrq |- *; simpl in Hrq; [done|].
  injection Hrq as <-. unfold outcome. cbn [snd]. rewrite Hnet.
  unfold reply_result.
  rewrite (_handle_response_2xx str_other resp Hreq Hstatus), Hjson.
  cbn [rbind].
  destruct (envelope_paths cls o Hfree Hwf) as (env & Henv & Hat).
  exists env. split; [exact Henv|]. split.
  - intros s p' x Hx. destruct (Hat s p' x Hx) as (y & Hy & Hw & _). eauto.
  - intros Hd Ht dict_other.
    exact (to_dict_of_envelope dict_other cls o env Henv Hd Ht).
Qed.

Lemma successful_call_wraps_the_body_witness :
  exists env,
    outcome
      (invoke no_repr
         (fun _ => Responded
            {| status_code := 200; ok := true;
               json := Some (PDict [("domains",
                                     PList [PDict [("name", PStr "legal")]]);
                                    ("total", PInt 1)]);
               text := "" |})
         (ClawPrint_new ∅ None "https://clawprint.io" (PInt 30)) Domains)
    = Ok env /\
    exists y,
      env_at [Field "domains"; Index 0; Field "name"] env = Some y /\
      _wrap (PStr "legal") = Ok y.
Proof.
  destruct (successful_call_wraps_the_body no_repr
              (fun _ => Responded
                 {| status_code := 200; ok := true;
                    json := Some (PDict [("domains",
                                          PList [PDict [("name",
                                                         PStr "legal")]]);
                                         ("total", PInt 1)]);
                    text := "" |})
              (ClawPrint_new ∅ None "https://clawprint.io" (PInt 30))
              Domains _ _
              [("domains", PList [PDict [("name", PStr "legal")]]);
               ("total", PInt 1)]
              eq_refl eq_refl eq_refl)
    as (env & Henv & Hat & _).
  - simpl. lia.
  - reflexivity.
  - reflexivity.
  - solve_dict_wf.
  - exists env. split; [exact Henv|].
    exact (Hat (Field "domains") [Index 0; Field "name"] (PStr "legal")
             eq_refl).
Defined.

Lemma one_request_at_most_witness :
  issued (invoke no_repr
            (fun _ => Responded
               {| status_code := 200; ok := true; json := None;
                  text := "" |})
            (ClawPrint_new ∅ None "https://clawprint.io" (PInt 30))
            (Trust None)) = [].
Proof.
  refine (proj2 (one_request_at_most no_repr _
                   (ClawPrint_new ∅ None "https://clawprint.io" (PInt 30))
                   (Trust None))
            (ValidationError_new "'handle' is required and cannot be empty.")
            _ _).
  - reflexivity.
  - by left.
Defined.

Lemma adapter_search_params_witness :
  exists rq,
    fst (Adapter.search_agents no_repr no_repr
           (fun _ => Responded
              {| status_code := 200; ok := true; json := None; text := "" |})
           (Adapter.ClawPrintClient_new ∅ None "https://clawprint.io"
              (PInt 30))
           "code review" (Some "") None) = [rq] /\
    sent_param rq "q" = Some (PStr "code review") /\
    sent_param rq "domain" = None.
Proof.
  destruct (adapter_search_params no_repr no_repr
              (fun _ => Responded
                 {| status_code := 200; ok := true; json := None;
                    text := "" |})
              (Adapter.ClawPrintClient_new ∅ None "https://clawprint.io"
                 (PInt 30))
              "code review" (Some "") None)
    as (rq & Hrq & _ & _ & _ & _ & Hq & Hd & _).
  exists rq. split; [exact Hrq|]. split; [exact Hq | exact Hd].
Defined.
